(** * Podracer: the driving-simulation core of [GameCanvas], session
    finalisation and the crew-chief summariser.

    JavaScript numbers are modelled as exact rationals ([Q]); the value
    [Infinity] that seeds the closest-point scan is a separate constructor,
    NaN is not modelled and a division by zero yields 0, which only a car
    configured with top speed 0 can meet (in its turn rate).
    [Math.sqrt], [Math.cos], [Math.sin] and [Math.atan2] are an interface
    ([MathLib]) of the host runtime; [Math.random] and [Date.now] are read
    from the per-frame environment. *)

From stdpp Require Import base list.
From Stdlib Require Import ZArith QArith Qabs Qminmax Qround String DecimalString Lia Lqa.

Local Open Scope Q_scope.

(** ** Numbers *)

Module JS.

Definition leb (a b : Q) : bool := Qle_bool a b.
Definition ltb (a b : Q) : bool := negb (Qle_bool b a).
Definition gtb (a b : Q) : bool := ltb b a.
Definition geb (a b : Q) : bool := leb b a.

Definition abs (a : Q) : Q := Qabs a.
Definition min (a b : Q) : Q := Qmin a b.
Definition max (a b : Q) : Q := Qmax a b.
Definition floor (a : Q) : Z := Qfloor a.
(** [Math.round]: nearest integer, halves towards +infinity. *)
Definition round (a : Q) : Z := Qfloor (a + (1 # 2)).

(** [Math.PI] is the double 884279719003555 / 2^48. *)
Definition PI : Q := 884279719003555 # 281474976710656.

(** The transcendental part of [Math]. *)
Class MathLib := {
  sqrt : Q -> Q;
  cos : Q -> Q;
  sin : Q -> Q;
  atan2 : Q -> Q -> Q
}.

(** A number that may be [Infinity] (only [minDistance] ever is). *)
Inductive Num := Finite (q : Q) | Infinity.

(** [d < m] for a finite [d]. *)
Definition lt_num (d : Q) (m : Num) : bool :=
  match m with
  | Infinity => true
  | Finite q => ltb d q
  end.

(** [m > w] for a finite [w]. *)
Definition num_gt (m : Num) (w : Q) : bool :=
  match m with
  | Infinity => true
  | Finite q => gtb q w
  end.

End JS.

(** ** Data model (types.ts) *)

Record Point := mkPoint { p_x : Q; p_y : Q }.

Inductive Difficulty := Easy | Medium | Hard.

Record TrackData := mkTrack {
  track_id : string;
  track_name : string;
  points : list Point;
  width : Q;
  track_color : string;
  difficulty : Difficulty
}.

Record LapTelemetry := mkLap {
  lapNumber : Z;
  time : Q;
  maxSpeed : Z;
  averageSpeed : Q;
  offTrackCount : Z;
  collisions : Z
}.

Record GameSessionStats := mkStats {
  totalLaps : Z;
  bestLap : option Q;
  stats_telemetry : list LapTelemetry;
  timestamp : string
}.

Record CarConfig := mkCarConfig {
  car_id : string;
  car_name : string;
  car_color : string;
  acceleration : Q;
  topSpeed : Q;
  handling : Q
}.

(** ** Game state (GameCanvas) *)

Inductive AIDifficulty := OFF | EASY | MEDIUM | HARD.

Record ParticleData := mkParticle {
  pt_id : Z;
  pt_x : Q; pt_y : Q; pt_z : Q;
  pt_vx : Q; pt_vy : Q; pt_vz : Q;
  life : Q;
  pt_color : string
}.

Record SkidMarkData := mkSkid {
  sk_id : Z;
  sk_x : Q; sk_z : Q;
  opacity : Q;
  sk_angle : Q
}.

Record Velocity := mkVel { v_x : Q; v_z : Q }.

Record Car := mkCar {
  x : Q;
  z : Q;
  angle : Q;
  velocity : Velocity;
  speed : Q;
  drifting : bool;
  driftCharge : Q;
  boostTimer : Q
}.

Record Keys := mkKeys {
  ArrowUp : bool;
  ArrowDown : bool;
  ArrowLeft : bool;
  ArrowRight : bool;
  Shift : bool
}.

Record CurrentTelemetry := mkCur {
  cur_maxSpeed : Q;
  cur_collisions : Z;
  offTrackFrames : Z
}.

Record GameState := mkState {
  car : Car;
  keys : Keys;
  particles : list ParticleData;
  skidMarks : list SkidMarkData;
  laps : Z;
  lapStartTime : Q;
  checkpoints : list bool;
  telemetry : list LapTelemetry;
  currentTelemetry : CurrentTelemetry;
  particleIdCounter : Z
}.

(** ** Keyboard handlers *)

Record KeyboardEvent := mkEvent { code : string; key : string }.

Inductive KeyEvent := KeyDown (e : KeyboardEvent) | KeyUp (e : KeyboardEvent).

(** [keys[name] = v], guarded by [keys.hasOwnProperty(name)]. *)
Definition setOwnKey (k : Keys) (name : string) (v : bool) : Keys :=
  if String.eqb name "ArrowUp" then
    mkKeys v (ArrowDown k) (ArrowLeft k) (ArrowRight k) (Shift k)
  else if String.eqb name "ArrowDown" then
    mkKeys (ArrowUp k) v (ArrowLeft k) (ArrowRight k) (Shift k)
  else if String.eqb name "ArrowLeft" then
    mkKeys (ArrowUp k) (ArrowDown k) v (ArrowRight k) (Shift k)
  else if String.eqb name "ArrowRight" then
    mkKeys (ArrowUp k) (ArrowDown k) (ArrowLeft k) v (Shift k)
  else if String.eqb name "Shift" then
    mkKeys (ArrowUp k) (ArrowDown k) (ArrowLeft k) (ArrowRight k) v
  else k.

Definition setShift (k : Keys) (v : bool) : Keys :=
  mkKeys (ArrowUp k) (ArrowDown k) (ArrowLeft k) (ArrowRight k) v.

Definition handleKey (v : bool) (e : KeyboardEvent) (k : Keys) : Keys :=
  let k1 := setOwnKey k (code e) v in
  if String.eqb (key e) "Shift" then setShift k1 v else k1.

Definition handleKeyEvent (k : Keys) (ev : KeyEvent) : Keys :=
  match ev with
  | KeyDown e => handleKey true e k
  | KeyUp e => handleKey false e k
  end.

(** What one animation frame reads from outside the game state. *)
Record Frame := mkFrame {
  delta : Q;               (* seconds since the previous frame *)
  aiMode : AIDifficulty;   (* aiModeRef.current *)
  random : nat -> Q;       (* the n-th Math.random() of this frame *)
  events : list KeyEvent;  (* keydown / keyup since the previous frame *)
  nowLap : Q;              (* Date.now() when the lap time is taken *)
  nowReset : Q             (* Date.now() when the lap timer restarts *)
}.

(** ** The physics engine: [runGameLoop] *)

Section GameCanvas.

Context `{M : JS.MathLib}.
Variable track : TrackData.
Variable carConfig : CarConfig.

(** *** 0. Find closest point *)

Fixpoint scanPoints (c : Car) (pts : list Point) (i : Z)
    (best : JS.Num * Z) : JS.Num * Z :=
  match pts with
  | [] => best
  | p :: rest =>
      let dist := JS.sqrt ((x c - p_x p) ^ 2 + (z c - p_y p) ^ 2) in
      scanPoints c rest (i + 1)%Z
        (if JS.lt_num dist (fst best) then (JS.Finite dist, i) else best)
  end.

(** [(minDistance, closestPointIndex)] *)
Definition closestPoint (c : Car) : JS.Num * Z :=
  scanPoints c (points track) 0%Z (JS.Infinity, (-1)%Z).

(** *** AI logic *)

Definition isHARD (m : AIDifficulty) : bool :=
  match m with HARD => true | _ => false end.

Definition isOFF (m : AIDifficulty) : bool :=
  match m with OFF => true | _ => false end.

(** [while (h <= -Math.PI) h += Math.PI * 2] *)
Fixpoint wrapUp (fuel : nat) (h : Q) : Q :=
  match fuel with
  | O => h
  | S n => if JS.leb h (- JS.PI) then wrapUp n (h + JS.PI * 2) else h
  end.

(** [while (h > Math.PI) h -= Math.PI * 2] *)
Fixpoint wrapDown (fuel : nat) (h : Q) : Q :=
  match fuel with
  | O => h
  | S n => if JS.gtb h JS.PI then wrapDown n (h - JS.PI * 2) else h
  end.

(** Iterations either loop can need on [h]. *)
Definition turns (h : Q) : nat :=
  S (Z.to_nat (Qfloor (Qabs h / (JS.PI * 2)))).

Definition normalizeHeading (h : Q) : Q :=
  let h1 := wrapUp (turns h) h in
  wrapDown (turns h1) h1.

Definition targetPoint (closestPointIndex lookAhead : Z) : Point :=
  let targetIdx :=
    ((closestPointIndex + lookAhead) mod Z.of_nat (List.length (points track)))%Z in
  default (mkPoint 0 0) (points track !! Z.to_nat targetIdx).

Definition aiControl (mode : AIDifficulty) (closestPointIndex : Z)
    (c : Car) (k : Keys) : Keys :=
  if negb (isOFF mode) && negb (closestPointIndex =? -1)%Z then
    let lookAhead := if isHARD mode then 35%Z else 15%Z in
    let targetP := targetPoint closestPointIndex lookAhead in
    let dx := p_x targetP - x c in
    let dz := p_y targetP - z c in
    let targetAngle := JS.atan2 dz dx in
    let headingError := normalizeHeading (targetAngle - angle c) in
    let right := JS.gtb headingError 0.05 in
    let left := negb right && JS.ltb headingError (-0.05) in
    let turnSeverity := JS.abs headingError in
    let maxSpeed := topSpeed carConfig * (if isHARD mode then 1.05 else 0.8) in
    let desiredSpeed := maxSpeed / (1 + turnSeverity * 5) in
    let up := JS.ltb (JS.abs (speed c)) desiredSpeed in
    let shift :=
      isHARD mode && JS.gtb turnSeverity 0.5 && JS.gtb (JS.abs (speed c)) 20 in
    mkKeys up (negb up) left right shift
  else k.

(** *** Drift and boost logic *)

Definition driftStep (dt : Q) (k : Keys) (c : Car) : Car :=
  let isTurning := ArrowLeft k || ArrowRight k in
  let canDrift := JS.gtb (JS.abs (speed c)) 10 in
  if Shift k && canDrift && (isTurning || drifting c) then
    mkCar (x c) (z c) (angle c) (velocity c) (speed c) true
      (if JS.ltb (driftCharge c) 100 then driftCharge c + dt * 30
       else driftCharge c)
      (boostTimer c)
  else
    mkCar (x c) (z c) (angle c) (velocity c) (speed c) false 0
      (if drifting c && JS.gtb (driftCharge c) 30 then
         if JS.gtb (driftCharge c) 80 then 2.0 else 1.0
       else boostTimer c).

(** *** Physics *)

Definition boosting (c : Car) : bool := JS.gtb (boostTimer c) 0.

Definition currentTopSpeed (c : Car) : Q :=
  if boosting c then topSpeed carConfig * 1.5 else topSpeed carConfig.

Definition currentAcceleration (c : Car) : Q :=
  if boosting c then acceleration carConfig * 2.0 else acceleration carConfig.

Definition throttle (dt : Q) (k : Keys) (c : Car) : Q :=
  if ArrowUp k then speed c + currentAcceleration c * dt * 60
  else if ArrowDown k then speed c - currentAcceleration c * 1.5 * dt * 60
  else speed c * (if drifting c then 0.99 else 0.98).

Definition clampSpeed (c : Car) (s : Q) : Q :=
  JS.max (JS.min s (currentTopSpeed c)) (- currentTopSpeed c / 3).

Definition physicsStep (dt : Q) (k : Keys) (c : Car) : Car :=
  let boostTimer' := if boosting c then boostTimer c - dt else boostTimer c in
  let speed' := clampSpeed c (throttle dt k c) in
  let turnRate0 := 0.04 * (JS.abs speed' / topSpeed carConfig) + 0.02 in
  let turnRate := if drifting c then turnRate0 * 1.4 else turnRate0 in
  let angle' :=
    if JS.gtb (JS.abs speed') 0.1 then
      let a := if ArrowLeft k then angle c - turnRate * dt * 60 else angle c in
      if ArrowRight k then a + turnRate * dt * 60 else a
    else angle c in
  let headingX := JS.cos angle' in
  let headingZ := JS.sin angle' in
  let grip := if drifting c then 0.92 else handling carConfig in
  let targetVX := headingX * speed' in
  let targetVZ := headingZ * speed' in
  let vx := v_x (velocity c) * grip + targetVX * (1 - grip) in
  let vz := v_z (velocity c) * grip + targetVZ * (1 - grip) in
  mkCar (x c + vx * dt * 60) (z c + vz * dt * 60) angle' (mkVel vx vz)
    speed' (drifting c) (driftCharge c) boostTimer'.

(** *** Off-track *)

Definition isOffTrack (minDistance : JS.Num) : bool :=
  JS.num_gt minDistance (width track / 2).

Definition offTrackCar (c : Car) : Car :=
  mkCar (x c) (z c) (angle c)
    (mkVel (v_x (velocity c) * 0.92) (v_z (velocity c) * 0.92))
    (speed c * 0.92) false 0 (boostTimer c).

Definition offTrackTelemetry (t : CurrentTelemetry) : CurrentTelemetry :=
  mkCur (cur_maxSpeed t) (cur_collisions t) (offTrackFrames t + 1)%Z.

(** *** Particles and skid marks *)

Definition ageParticle (dt : Q) (p : ParticleData) : ParticleData :=
  mkParticle (pt_id p)
    (pt_x p + pt_vx p) (pt_y p + pt_vy p) (pt_z p + pt_vz p)
    (pt_vx p) (pt_vy p) (pt_vz p) (life p - dt) (pt_color p).

(** The loop runs from the last index down and splices out the dead. *)
Definition ageParticles (dt : Q) (ps : list ParticleData) : list ParticleData :=
  foldr (fun p alive =>
           let p' := ageParticle dt p in
           if JS.leb (life p') 0 then alive else p' :: alive) [] ps.

Definition fadeSkidMark (dt : Q) (m : SkidMarkData) : SkidMarkData :=
  mkSkid (sk_id m) (sk_x m) (sk_z m) (opacity m - dt * 0.5) (sk_angle m).

Definition fadeSkidMarks (dt : Q) (ms : list SkidMarkData) : list SkidMarkData :=
  foldr (fun m kept =>
           let m' := fadeSkidMark dt m in
           if JS.leb (opacity m') 0 then kept else m' :: kept) [] ms.

Definition sparkColor (c : Car) : string :=
  if JS.gtb (driftCharge c) 80 then "#ef4444"
  else if JS.gtb (driftCharge c) 30 then "#eab308"
  else "#cbd5e1".

(** One spark; it consumes the random draws [n .. n+3]. [headingX] and
    [headingZ] are the cosine and sine of the heading, which no step after
    the physics changes. *)
Definition spark (rnd : nat -> Q) (n : nat) (id : Z) (c : Car) : ParticleData :=
  mkParticle id
    (x c + (rnd n - 0.5) * 20)
    5
    (z c + (rnd (S n) - 0.5) * 20)
    (- JS.cos (angle c) * speed c * 0.2)
    (rnd (S (S n)) * 2)
    (- JS.sin (angle c) * speed c * 0.2)
    (0.3 + rnd (S (S (S n))) * 0.2)
    (sparkColor c).

Record Effects := mkEffects {
  fx_particles : list ParticleData;
  fx_skidMarks : list SkidMarkData;
  fx_counter : Z
}.

Definition spawn (rnd : nat -> Q) (c : Car) (e : Effects) : Effects :=
  if drifting c && JS.gtb (JS.abs (speed c)) 15 then
    let skid := JS.gtb (rnd O) 0.5 in
    let marks :=
      if skid then
        fx_skidMarks e ++ [mkSkid (fx_counter e) (x c) (z c) 0.8 (angle c)]
      else fx_skidMarks e in
    let id0 := if skid then (fx_counter e + 1)%Z else fx_counter e in
    mkEffects
      (fx_particles e ++ [spark rnd 1 id0 c; spark rnd 5 (id0 + 1)%Z c])
      marks (id0 + 2)%Z
  else e.

Definition effectsStep (dt : Q) (rnd : nat -> Q) (c : Car) (s : GameState)
    : Effects :=
  spawn rnd c
    (mkEffects (ageParticles dt (particles s))
               (fadeSkidMarks dt (skidMarks s))
               (particleIdCounter s)).

(** *** Laps *)

Definition totalPoints : Z := Z.of_nat (List.length (points track)).

Definition checkpointZone : Z := JS.floor (inject_Z totalPoints / 4).

(** [Math.floor(closestPointIndex / checkpointZone)]; with a zone of 0 the
    quotient is NaN or an infinity, written [None]: every comparison of
    the guard below is then false. *)
Definition currentSection (closestPointIndex : Z) : option Z :=
  if (checkpointZone =? 0)%Z then None
  else Some (JS.floor (inject_Z closestPointIndex / inject_Z checkpointZone)).

Definition markCheckpoint (closestPointIndex : Z) (cps : list bool)
    : list bool :=
  match currentSection closestPointIndex with
  | Some sec =>
      if (0 <=? sec)%Z && (sec <? 4)%Z then <[Z.to_nat sec := true]> cps
      else cps
  | None => cps
  end.

(** [checkpoints[i]] as a condition. *)
Definition flag (cps : list bool) (i : nat) : bool := default false (cps !! i).

Definition lapComplete (closestPointIndex : Z) (cps : list bool) : bool :=
  (closestPointIndex <? 10)%Z && flag cps 2 && flag cps 3.

Definition lapRecord (f : Frame) (s : GameState) (cur : CurrentTelemetry)
    : LapTelemetry :=
  {| lapNumber := (laps s + 1)%Z;
     time := (nowLap f - lapStartTime s) / 1000;
     maxSpeed := JS.round (cur_maxSpeed cur * 10);
     averageSpeed := 0;
     collisions := JS.floor (inject_Z (cur_collisions cur) / 10);
     offTrackCount := JS.floor (inject_Z (offTrackFrames cur) / 60) |}.

Definition currentMph (c : Car) : Q := JS.abs (speed c) * 10.

Definition recordMaxSpeed (c : Car) (cur : CurrentTelemetry)
    : CurrentTelemetry :=
  if JS.gtb (currentMph c) (cur_maxSpeed cur) then
    mkCur (currentMph c) (cur_collisions cur) (offTrackFrames cur)
  else cur.

(** *** The loop body *)

Definition runGameLoop (f : Frame) (dt : Q) (s : GameState) : GameState :=
  let closest := closestPoint (car s) in
  let minDistance := fst closest in
  let closestPointIndex := snd closest in
  let keys' := aiControl (aiMode f) closestPointIndex (car s) (keys s) in
  let moved := physicsStep dt keys' (driftStep dt keys' (car s)) in
  let off := isOffTrack minDistance in
  let car' := if off then offTrackCar moved else moved in
  let cur := if off then offTrackTelemetry (currentTelemetry s)
             else currentTelemetry s in
  let fx := effectsStep dt (random f) car' s in
  let cps := markCheckpoint closestPointIndex (checkpoints s) in
  if lapComplete closestPointIndex cps then
    mkState car' keys' (fx_particles fx) (fx_skidMarks fx)
      (laps s + 1)%Z (nowReset f) (map (fun _ => false) cps)
      (telemetry s ++ [lapRecord f s cur])
      (recordMaxSpeed car' (mkCur 0 0%Z 0%Z))
      (fx_counter fx)
  else
    mkState car' keys' (fx_particles fx) (fx_skidMarks fx)
      (laps s) (lapStartTime s) cps (telemetry s)
      (recordMaxSpeed car' cur)
      (fx_counter fx).

(** *** The frame callback and whole runs *)

Definition pressKeys (evs : list KeyEvent) (s : GameState) : GameState :=
  mkState (car s) (foldl handleKeyEvent (keys s) evs) (particles s)
    (skidMarks s) (laps s) (lapStartTime s) (checkpoints s) (telemetry s)
    (currentTelemetry s) (particleIdCounter s).

(** [useFrame]: [runGameLoop(Math.min(delta, 0.1))], after the key events
    delivered since the previous frame. *)
Definition frameStep (s : GameState) (f : Frame) : GameState :=
  runGameLoop f (JS.min (delta f) 0.1) (pressKeys (events f) s).

Definition run (fs : list Frame) (s : GameState) : GameState :=
  foldl frameStep s fs.

(** *** Session setup *)

Inductive Mounted := Ready (s : GameState) | TypeError.

(** The initial [gameState] and the mount effect.  Reading
    [track.points[0].x] on a track without points is the only fault. *)
Definition mountGameCanvas (now : Q) : Mounted :=
  match points track with
  | [] => TypeError
  | startP :: rest =>
      let nextP :=
        match rest with
        | p :: _ => p
        | [] => mkPoint (p_x startP + 10) (p_y startP)
        end in
      let dx := p_x nextP - p_x startP in
      let dy := p_y nextP - p_y startP in
      Ready
        (mkState
           (mkCar (p_x startP) (p_y startP) (JS.atan2 dy dx) (mkVel 0 0)
              0 false 0 0)
           (mkKeys false false false false false)
           [] [] 0%Z now [false; false; false; false] []
           (mkCur 0 0%Z 0%Z) 0%Z)
  end.

(** *** Session end *)

(** [Math.min(t, ...rest)] *)
Definition minOf (t : Q) (rest : list Q) : Q := foldl JS.min t rest.

Definition finishRace (stamp : string) (s : GameState) : GameSessionStats :=
  mkStats (laps s)
    (match telemetry s with
     | [] => None
     | t :: rest => Some (minOf (time t) (map time rest))
     end)
    (telemetry s) stamp.

(** *** Views of one frame used to state properties *)

(** The keys the loop body works with: the handlers' keys, overwritten
    by the AI when it is on. *)
Definition frameKeys (s : GameState) (f : Frame) : Keys :=
  aiControl (aiMode f) (snd (closestPoint (car s)))
    (car s) (foldl handleKeyEvent (keys s) (events f)).

Definition frameDt (f : Frame) : Q := JS.min (delta f) 0.1.

(** The car as the physics reads it: after this frame's drift logic. *)
Definition arbitrated (s : GameState) (f : Frame) : Car :=
  driftStep (frameDt f) (frameKeys s f) (car s).

Definition boostMultiplier (c : Car) : Q := if boosting c then 1.5 else 1.

(** What the physics and the lap tracker own: everything but the
    particles, the skid marks and the id counter they are numbered with. *)
Definition physicsView (s : GameState) :=
  (car s, keys s, laps s, lapStartTime s, checkpoints s, telemetry s,
   currentTelemetry s).


(** Two frames that differ at most in their random draws. *)
Definition sameInputs (f1 f2 : Frame) : Prop :=
  delta f1 = delta f2 /\ aiMode f1 = aiMode f2 /\ events f1 = events f2
  /\ nowLap f1 = nowLap f2 /\ nowReset f1 = nowReset f2.

(** The closest-point index the frame that starts in [s] works with. *)
Definition closestIndex (s : GameState) : Z := snd (closestPoint (car s)).

(** The checkpoint flags once the frame has marked its section. *)
Definition markedCheckpoints (s : GameState) : list bool :=
  markCheckpoint (closestIndex s) (checkpoints s).

(** Some frame of the run starts with the closest point in section [q]. *)
Definition entersSection (q : Z) (s0 : GameState) (fs : list Frame) : Prop :=
  exists n : nat,
    (n < List.length fs)%nat
    /\ currentSection (closestIndex (run (take n fs) s0)) = Some q.

End GameCanvas.

(** ** The crew-chief summariser (geminiService, CrewChief, App) *)

Module Gemini.

(** A JavaScript completion: a value, or a thrown error (a rejected
    promise, once awaited). *)
Inductive Outcome (A : Type) := Returned (a : A) | Thrown (err : string).
Arguments Returned {A} a.
Arguments Thrown {A} err.

Definition bind {A B} (m : Outcome A) (k : A -> Outcome B) : Outcome B :=
  match m with
  | Returned a => k a
  | Thrown err => Thrown err
  end.

Notation "x <- m ;; k" := (bind m (fun x => k))
  (at level 100, m at next level, right associativity).

(** [try { body } catch (error) { handler }] *)
Definition tryCatch {A} (body : Outcome A) (handler : string -> Outcome A)
    : Outcome A :=
  match body with
  | Returned a => Returned a
  | Thrown err => handler err
  end.

Record Response := mkResponse { text : option string }.

(** The external service: building the client and one generation call. *)
Record Service := mkService {
  getAI : Outcome unit;
  generateContent : string -> string -> Outcome Response
}.

Definition noDataMessage : string :=
  "Communication error with Crew Chief. No data received.".

Definition radioDownMessage : string :=
  "Crew Chief radio is down. Check your network connection or API key.".

(** [s || fallback] on an optional string: undefined and the empty
    string are both falsy. *)
Definition orElse (s : option string) (fallback : string) : string :=
  match s with
  | Some (String a rest) => String a rest
  | Some EmptyString => fallback
  | None => fallback
  end.

Section Service.

(** Number formatting of the host: [n.toFixed(d)] and the decimal
    rendering of an integer. *)
Variable toFixed : Q -> nat -> string.
Variable showInt : Z -> string.

Definition quote : string := String (Ascii.ascii_of_nat 34) EmptyString.
Definition nl : string := String (Ascii.ascii_of_nat 10) EmptyString.
Definition cat (parts : list string) : string := String.concat EmptyString parts.

(** One element of the array given to [JSON.stringify]. *)
Definition lapJson (t : LapTelemetry) : string :=
  cat [ "{"; quote; "lap"; quote; ":"; showInt (lapNumber t); ",";
        quote; "time"; quote; ":"; quote; toFixed (time t) 2; quote; ",";
        quote; "avgSpeed"; quote; ":"; showInt (JS.round (averageSpeed t)); ",";
        quote; "collisions"; quote; ":"; showInt (collisions t); ",";
        quote; "offTrack"; quote; ":"; showInt (offTrackCount t); "}" ]%string.

Definition bestLapText (stats : GameSessionStats) : string :=
  match bestLap stats with
  | Some b => if Qeq_bool b 0 then "N/A"%string
              else String.append (toFixed b 2) "s"
  | None => "N/A"%string
  end.

Definition prompt (stats : GameSessionStats) : string :=
  cat [ nl;
    "      You are an expert Race Engineer for a top-tier racing team. "; nl;
    "      The driver has just completed a session. Analyze their telemetry below and provide feedback."; nl;
    "      "; nl;
    "      **Data:**"; nl;
    "      - Total Laps: "; showInt (totalLaps stats); nl;
    "      - Best Lap Time: "; bestLapText stats; nl;
    "      - Lap Telemetry: [";
        String.concat "," (map lapJson (stats_telemetry stats)); "]"; nl;
    nl;
    "      **Instructions:**"; nl;
    "      1. Analyze their consistency (lap times)."; nl;
    "      2. Critique their safety (collisions/off-track)."; nl;
    "      3. Give 2-3 specific, actionable tips to improve their driving line or throttle control."; nl;
    "      4. Adopt a professional but encouraging "; quote; "Crew Chief"; quote; " persona. "; nl;
    "      5. Keep it under 200 words."; nl;
    "    " ]%string.

Definition modelId : string := "gemini-3-flash-preview".

Definition analyzeRacePerformance (svc : Service) (stats : GameSessionStats)
    : Outcome string :=
  tryCatch
    (_ <- getAI svc ;;
     response <- generateContent svc modelId (prompt stats) ;;
     Returned (orElse (text response) noDataMessage))
    (fun _ => Returned radioDownMessage).

(** *** CrewChief and the App state that holds the statistics *)

Inductive GameView := MENU | RACE | ANALYSIS.

Record CrewChiefState := mkCrew {
  analysis : string;
  loading : bool;
  error : bool
}.

Record AppState := mkApp {
  view : GameView;
  lastSessionStats : option GameSessionStats;
  crewChief : CrewChiefState
}.

Definition handleRaceEnd (stats : GameSessionStats) (a : AppState) : AppState :=
  mkApp ANALYSIS (Some stats) (mkCrew EmptyString true false).

(** [fetchAnalysis] of the CrewChief effect, run to completion while the
    component is mounted. *)
Definition fetchAnalysis (svc : Service) (stats : GameSessionStats)
    (c : CrewChiefState) : CrewChiefState :=
  match analyzeRacePerformance svc stats with
  | Returned result => mkCrew result false (error c)
  | Thrown _ => mkCrew (analysis c) false true
  end.

Definition showAnalysis (svc : Service) (a : AppState) : AppState :=
  match lastSessionStats a with
  | Some stats =>
      mkApp (view a) (lastSessionStats a) (fetchAnalysis svc stats (crewChief a))
  | None => a
  end.

End Service.

End Gemini.

(** ** A fixed-point [MathLib] to run the program on concrete inputs

    Results are rounded to twelve decimals.  It is exact where the
    examples below need it: square roots of perfect squares, [cos 0],
    [sin 0] and [atan2 0 x] for positive [x]. *)

Module FixedMath.

Definition grid : Z := (10 ^ 12)%Z.

Definition snap (q : Q) : Q := Qred (Qmake (Qfloor (q * inject_Z grid + (1 # 2))) (Z.to_pos grid)).

Definition sqrt (q : Q) : Q :=
  if JS.leb q 0 then 0
  else Qred (Qmake (Z.sqrt (Qfloor (q * inject_Z (grid * grid)))) (Z.to_pos grid)).

(** Sum of [n] terms of an alternating power series in [x2 = x * x],
    starting from [term], whose next factor divides by [k (k + 1)]. *)
Fixpoint series (n : nat) (x2 term : Q) (k : Z) (acc : Q) : Q :=
  match n with
  | O => acc
  | S m =>
      series m x2 (Qred (- term * x2 / inject_Z (k * (k + 1)))) (k + 2)%Z
        (Qred (acc + term))
  end.

(** Bring an angle into [-PI, PI]. *)
Definition reduce (a : Q) : Q :=
  Qred (a - inject_Z (Qfloor (a / (JS.PI * 2) + (1 # 2))) * (JS.PI * 2)).

Definition cos (a : Q) : Q :=
  let r := reduce a in snap (series 16 (r * r) 1 1%Z 0).

Definition sin (a : Q) : Q :=
  let r := reduce a in snap (series 16 (r * r) r 2%Z 0).

(** Odd series of the arc tangent: [t - t^3/3 + t^5/5 - ...]. *)
Fixpoint atanSeries (n : nat) (t2 power : Q) (k : Z) (acc : Q) : Q :=
  match n with
  | O => acc
  | S m =>
      atanSeries m t2 (Qred (- power * t2)) (k + 2)%Z
        (Qred (acc + power / inject_Z k))
  end.

(** Halve the angle: [atan t = 2 atan (t / (1 + sqrt (1 + t^2)))]. *)
Definition halve (t : Q) : Q := Qred (t / (1 + sqrt (1 + t * t))).

(** [atan t] for [-1 <= t <= 1]. *)
Definition atanUnit (t : Q) : Q :=
  let h := halve (halve t) in
  4 * atanSeries 14 (h * h) h 1%Z 0.

Definition atan (t : Q) : Q :=
  if JS.gtb t 1 then JS.PI / 2 - atanUnit (1 / t)
  else if JS.ltb t (-1) then - (JS.PI / 2) - atanUnit (1 / t)
  else atanUnit t.

Definition atan2 (y x : Q) : Q :=
  snap
    (if JS.gtb x 0 then atan (y / x)
     else if JS.ltb x 0 then
       (if JS.ltb y 0 then atan (y / x) - JS.PI else atan (y / x) + JS.PI)
     else if JS.gtb y 0 then JS.PI / 2
     else if JS.ltb y 0 then - (JS.PI / 2)
     else 0).

#[export] Instance fixedMath : JS.MathLib :=
  {| JS.sqrt := sqrt; JS.cos := cos; JS.sin := sin; JS.atan2 := atan2 |}.

End FixedMath.

(** ** Number formatting to run the summariser on concrete inputs *)

Module HostFormat.

Definition showInt (n : Z) : string := NilZero.string_of_int (Z.to_int n).

Definition showNat (n : Z) : string := NilZero.string_of_uint (N.to_uint (Z.to_N n)).

(** [width] decimal digits of [n], zero-padded on the left. *)
Fixpoint digits (width : nat) (n : Z) (acc : string) : string :=
  match width with
  | O => acc
  | S w => digits w (n / 10)%Z (String.append (showNat (n mod 10)%Z) acc)
  end.

(** [q.toFixed(d)]: [q] rounded to [d] decimals. *)
Definition toFixed (q : Q) (d : nat) : string :=
  let scale := (10 ^ Z.of_nat d)%Z in
  let n := Qfloor (Qabs q * inject_Z scale + (1 # 2)) in
  let body :=
    String.append (showNat (n / scale)%Z)
      (match d with
       | O => EmptyString
       | S _ => String.append "." (digits d (n mod scale)%Z EmptyString)
       end) in
  if JS.ltb q 0 && negb (n =? 0)%Z then String.append "-" body else body.

End HostFormat.

(** ** Concrete configurations *)

Module Fixtures.

Import FixedMath.

(** CARS of constants.ts *)
Definition titan : CarConfig :=
  mkCarConfig "pod-1" "Titan Twin-Turbo" "#3b82f6" 0.4 32 0.92.
Definition crimson : CarConfig :=
  mkCarConfig "pod-2" "Crimson Fury" "#ef4444" 0.55 38 0.88.
Definition jade : CarConfig :=
  mkCarConfig "pod-3" "Jade Speeder" "#10b981" 0.35 30 0.96.

(** A straight two-point track, wide enough to stay on. *)
Definition strip : TrackData :=
  mkTrack "strip" "Test Strip" [mkPoint 0 0; mkPoint 1000 0] 100000
    "#ffffff" Easy.


(** A five-point loop of width 100. *)
Definition pentagon : TrackData :=
  mkTrack "pentagon" "Five Corners"
    [mkPoint 0 0; mkPoint 300 0; mkPoint 300 300; mkPoint (-20) 300;
     mkPoint (-20) 0] 100 "#ffffff" Medium.



Definition noRandom : nat -> Q := fun _ => 0.

Definition down (name : string) : KeyEvent := KeyDown (mkEvent name name).
Definition up (name : string) : KeyEvent := KeyUp (mkEvent name name).
Definition shiftDown : KeyEvent := KeyDown (mkEvent "ShiftLeft" "Shift").
Definition shiftUp : KeyEvent := KeyUp (mkEvent "ShiftLeft" "Shift").

(** A frame of 0.1 s with the given key events, AI off. *)
Definition frame (evs : list KeyEvent) (now : Q) : Frame :=
  mkFrame 0.1 OFF noRandom evs now now.

Definition start (t : TrackData) : GameState :=
  match mountGameCanvas t 0 with
  | Ready s => s
  | TypeError =>
      mkState (mkCar 0 0 0 (mkVel 0 0) 0 false 0 0)
        (mkKeys false false false false false) [] [] 0%Z 0 [] []
        (mkCur 0 0%Z 0%Z) 0%Z
  end.

(** Brake into reverse for three frames, hold a drift (both steering
    keys, so the heading stays) for eleven, then let go of Shift. *)
Definition reverseBoost : list Frame :=
  frame [down "ArrowDown"] 100
  :: repeat (frame [] 200) 2
  ++ frame [shiftDown; down "ArrowLeft"; down "ArrowRight"] 300
  :: repeat (frame [] 400) 10
  ++ [frame [shiftUp] 500].

Definition brakeKeys : Keys := mkKeys false true false false false.
Definition reverseDriftKeys : Keys := mkKeys false true true true true.

(** The Titan at its reverse limit, 346 units behind the start of the
    strip, in a drift charged to 33 with ArrowDown, both steering keys and
    Shift held: where three braking frames and eleven drifting frames of
    0.1 s take it from the mount (position and velocity rounded). *)
Definition reverser : GameState :=
  mkState (mkCar (-346) 0 0 (mkVel (-10.6) 0) (-32 # 3) true 33 0)
    reverseDriftKeys [] [] 0%Z 0 [true; false; false; false] []
    (mkCur (320 # 3) 0%Z 0%Z) 0%Z.

(** The drift logic and the physics of one 0.1 s frame, as they act on the
    car in a frame that starts on the track. *)
Definition onTrackFrame (k : Keys) (c : Car) : Car :=
  physicsStep titan 0.1 k (driftStep 0.1 k c).

(** Mid-drift at speed 20 on the strip, 100 units past the start, with
    Shift, ArrowLeft and ArrowUp held. *)
Definition drifter (charge : Q) : GameState :=
  mkState (mkCar 100 0 0 (mkVel 20 0) 20 true charge 0)
    (mkKeys true false true false true) [] [] 0%Z 0
    [true; false; false; false] [] (mkCur 200 0%Z 0%Z) 0%Z.

(** Back at the start of the strip with every checkpoint flag set. *)
Definition homeStretch : GameState :=
  mkState (mkCar 0 0 0 (mkVel 20 0) 20 false 0 0)
    (mkKeys true false false false false) [] [] 0%Z 0
    [true; true; true; true] [] (mkCur 200 0%Z 120%Z) 0%Z.

(** The drifter again, trailing two sparks and a skid mark. *)
Definition sparkling (charge : Q) : GameState :=
  mkState (mkCar 100 0 0 (mkVel 20 0) 20 true charge 0)
    (mkKeys true false true false true)
    [mkParticle 0 90 5 3 (-4) 1 0 0.4 "#eab308";
     mkParticle 1 95 5 (-2) (-4) 2 0 0.05 "#eab308"]
    [mkSkid 2 80 0 0.8 0] 0%Z 0
    [true; false; false; false] [] (mkCur 200 0%Z 0%Z) 3%Z.

(** A session that recorded laps of 31.5 s, 28.25 s and 29 s. *)
Definition threeLaps : GameState :=
  mkState (mkCar 0 0 0 (mkVel 20 0) 20 false 0 0)
    (mkKeys true false false false false) [] [] 3%Z 88750
    [true; false; false; false]
    [mkLap 1 31.5 310 0 1 0; mkLap 2 28.25 320 0 0 0; mkLap 3 29 320 0 0 0]
    (mkCur 200 0%Z 0%Z) 0%Z.

(** Summariser services: one that is unreachable, one that answers
    without text, one that answers. *)
Definition offline : Gemini.Service :=
  Gemini.mkService (Gemini.Returned tt)
    (fun _ _ => Gemini.Thrown "fetch failed").
Definition mute : Gemini.Service :=
  Gemini.mkService (Gemini.Returned tt)
    (fun _ _ => Gemini.Returned (Gemini.mkResponse None)).
Definition chatty : Gemini.Service :=
  Gemini.mkService (Gemini.Returned tt)
    (fun _ _ => Gemini.Returned (Gemini.mkResponse (Some "Good pace.")))%string.

End Fixtures.


(** ** Further views of the loop, used to state more of its behaviour *)

Section Observations.

Context `{M : JS.MathLib}.
Variable track : TrackData.
Variable carConfig : CarConfig.

(** The distance the scan computes for one track point. *)
Definition distanceTo (c : Car) (p : Point) : Q :=
  JS.sqrt ((x c - p_x p) ^ 2 + (z c - p_y p) ^ 2).

(** [m <= q] and [m <= m'] when [m] may be [Infinity]. *)
Definition atMost (m : JS.Num) (q : Q) : Prop :=
  match m with
  | JS.Finite a => a <= q
  | JS.Infinity => False
  end.

Definition numLe (m m' : JS.Num) : Prop :=
  match m' with
  | JS.Infinity => True
  | JS.Finite b => atMost m b
  end.

(** Whether the frame that starts in [s] is off the track, and whether it
    completes a lap. *)
Definition offTrackAt (s : GameState) : bool :=
  isOffTrack track (fst (closestPoint track (car s))).

Definition lapCompletes (s : GameState) : bool :=
  lapComplete (closestIndex track s) (markedCheckpoints track s).








End Observations.

(** ** The toolbar helpers of GameCanvas *)

Inductive CameraMode := CINEMATIC | COCKPIT.

Definition toggleCamera (cameraMode : CameraMode) : CameraMode :=
  match cameraMode with
  | CINEMATIC => COCKPIT
  | COCKPIT => CINEMATIC
  end.

Definition modeEqb (a b : AIDifficulty) : bool :=
  match a, b with
  | OFF, OFF | EASY, EASY | MEDIUM, MEDIUM | HARD, HARD => true
  | _, _ => false
  end.

(** [modes.indexOf(m)], counting from [i]; -1 when absent. *)
Fixpoint indexOf (m : AIDifficulty) (l : list AIDifficulty) (i : Z) : Z :=
  match l with
  | [] => (-1)%Z
  | a :: rest => if modeEqb a m then i else indexOf m rest (i + 1)%Z
  end.

Definition modes : list AIDifficulty := [OFF; EASY; MEDIUM; HARD].

(** [modes[(modes.indexOf(aiMode) + 1) % modes.length]]; [None] is the
    [undefined] of an index outside the array. *)
Definition cycleAI (aiMode : AIDifficulty) : option AIDifficulty :=
  modes !! Z.to_nat ((indexOf aiMode modes 0 + 1) mod Z.of_nat (List.length modes))%Z.

(** ** The track generators and catalogue of constants.ts *)

Module Constants.

Section Generators.

Context `{M : JS.MathLib}.

(** The angle of step [i] of [segments]: [(i / segments) * 2 * Math.PI]. *)
Definition stepAngle (segments i : nat) : Q :=
  inject_Z (Z.of_nat i) / inject_Z (Z.of_nat segments) * 2 * JS.PI.

(** [for (let i = 0; i <= segments; i++) points.push(point(i))] *)
Definition forEachStep (segments : nat) (point : nat -> Point) : list Point :=
  map point (seq 0 (S segments)).

Definition generateOval (centerX centerY width height : Q) (segments : nat)
    : list Point :=
  forEachStep segments (fun i =>
    let theta := stepAngle segments i in
    mkPoint (centerX + (width / 2) * JS.cos theta)
            (centerY + (height / 2) * JS.sin theta)).

Definition generateFigure8 (centerX centerY scale : Q) : list Point :=
  let segments := 150%nat in
  forEachStep segments (fun i =>
    let t := stepAngle segments i in
    mkPoint (centerX + scale * JS.sin t)
            (centerY + scale * JS.sin t * JS.cos t)).

Definition generateComplex (centerX centerY scale : Q) : list Point :=
  let segments := 200%nat in
  forEachStep segments (fun i =>
    let t := stepAngle segments i in
    mkPoint (centerX + scale * (JS.sin t + 0.3 * JS.sin (2 * t)))
            (centerY + scale * (0.8 * JS.cos t - 0.4 * JS.cos (2 * t)))).

Definition TRACKS : list TrackData :=
  [ mkTrack "oval-speedway" "Mos Espa Circuit"
      (generateOval 0 0 3000 1800 100) 250 "#f59e0b" Easy;
    mkTrack "figure-8" "Dune Sea Loop"
      (generateFigure8 0 0 2000) 220 "#ef4444" Medium;
    mkTrack "canyon-complex" "Beggar's Canyon"
      (generateComplex 0 0 2200) 200 "#a855f7" Hard ].

End Generators.

Definition CARS : list CarConfig :=
  [Fixtures.titan; Fixtures.crimson; Fixtures.jade].

End Constants.

(** ** The view state of App *)

Module App.

Import Gemini.

Record State := mkState {
  view : GameView;
  selectedTrack : TrackData;
  selectedCar : CarConfig;
  lastSessionStats : option GameSessionStats
}.

Definition startRace (s : State) : State :=
  mkState RACE (selectedTrack s) (selectedCar s) (lastSessionStats s).

Definition handleRaceEnd (stats : GameSessionStats) (s : State) : State :=
  mkState ANALYSIS (selectedTrack s) (selectedCar s) (Some stats).

Definition handleExitRace (s : State) : State :=
  mkState MENU (selectedTrack s) (selectedCar s) (lastSessionStats s).

(** The [Back to Paddock] button: [setView(GameView.MENU)]. *)
Definition backToPaddock (s : State) : State :=
  mkState MENU (selectedTrack s) (selectedCar s) (lastSessionStats s).

Definition setSelectedTrack (t : TrackData) (s : State) : State :=
  mkState (view s) t (selectedCar s) (lastSessionStats s).

Definition setSelectedCar (c : CarConfig) (s : State) : State :=
  mkState (view s) (selectedTrack s) c (lastSessionStats s).

(** What the user, or the running race, can make App do. *)
Inductive Action :=
| StartRace
| RaceEnd (stats : GameSessionStats)
| ExitRace
| BackToPaddock
| SelectTrack (t : TrackData)
| SelectCar (c : CarConfig).

Definition handle (s : State) (a : Action) : State :=
  match a with
  | StartRace => startRace s
  | RaceEnd stats => handleRaceEnd stats s
  | ExitRace => handleExitRace s
  | BackToPaddock => backToPaddock s
  | SelectTrack t => setSelectedTrack t s
  | SelectCar c => setSelectedCar c s
  end.

(** Which of the three views App returns; [Blank] is its final
    [return null]. *)
Inductive Screen :=
| MenuScreen
| RaceScreen (t : TrackData) (c : CarConfig)
| AnalysisScreen (stats : GameSessionStats)
| Blank.

Definition render (s : State) : Screen :=
  match view s with
  | MENU => MenuScreen
  | RACE => RaceScreen (selectedTrack s) (selectedCar s)
  | ANALYSIS =>
      match lastSessionStats s with
      | Some stats => AnalysisScreen stats
      | None => Blank
      end
  end.

(** [useState] initial values, for a catalogue whose first entries are
    [t0] and [c0]. *)
Definition initial (t0 : TrackData) (c0 : CarConfig) : State :=
  mkState MENU t0 c0 None.

End App.

(** ** Reading the keys and the action history *)

(** [keys[name]]: [None] is the [undefined] of a name the object lacks. *)
Definition keyNamed (k : Keys) (name : string) : option bool :=
  if String.eqb name "ArrowUp" then Some (ArrowUp k)
  else if String.eqb name "ArrowDown" then Some (ArrowDown k)
  else if String.eqb name "ArrowLeft" then Some (ArrowLeft k)
  else if String.eqb name "ArrowRight" then Some (ArrowRight k)
  else if String.eqb name "Shift" then Some (Shift k)
  else None.

(** The statistics of the last race that ended, if any did. *)
Fixpoint lastRaceEnd (seen : option GameSessionStats) (actions : list App.Action)
    : option GameSessionStats :=
  match actions with
  | [] => seen
  | App.RaceEnd stats :: rest => lastRaceEnd (Some stats) rest
  | _ :: rest => lastRaceEnd seen rest
  end.

(** Frames during which nobody drives: the AI is off and no key event
    arrives. *)
Definition idleFrames (fs : list Frame) : Prop :=
  Forall (fun f => aiMode f = OFF /\ events f = []) fs.

Definition noKeys : Keys := mkKeys false false false false false.

(** The car rests at the position and heading [c0] has. *)
Definition restsAt (c0 c : Car) : Prop :=
  speed c == 0 /\ v_x (velocity c) == 0 /\ v_z (velocity c) == 0
  /\ x c == x c0 /\ z c == z c0 /\ angle c = angle c0
  /\ drifting c = false.

(** ** More concrete inputs *)

Module Sessions.

Import Fixtures.

(** Two idle frames, 0.1 s apart on the clock. *)
Definition twoIdleFrames : list Frame := [frame [] 100; frame [] 200].

(** The strip driven by the AI on HARD. *)
Definition hardFrame : Frame := mkFrame 0.1 HARD noRandom [] 100 100.

End Sessions.
(** ** Facts about the comparisons *)

(** [lra] with divisions by constants turned into multiplications. *)
Ltac qconst :=
  unfold Qdiv in *;
  repeat match goal with
  | |- context [Qinv (Qmake ?n ?d)] =>
      let v := eval compute in (Qinv (Qmake n d)) in
      change (Qinv (Qmake n d)) with v
  | H : context [Qinv (Qmake ?n ?d)] |- _ =>
      let v := eval compute in (Qinv (Qmake n d)) in
      change (Qinv (Qmake n d)) with v in H
  end.

Ltac qlra := qconst; lra.

Lemma ltb_lt (a b : Q) : JS.ltb a b = true <-> a < b.
Proof.
  unfold JS.ltb. rewrite negb_true_iff, <- not_true_iff_false, Qle_bool_iff.
  split; [apply Qnot_le_lt | apply Qlt_not_le].
Qed.

Lemma ltb_ge (a b : Q) : JS.ltb a b = false <-> b <= a.
Proof.
  unfold JS.ltb. rewrite negb_false_iff. apply Qle_bool_iff.
Qed.

Lemma gtb_gt (a b : Q) : JS.gtb a b = true <-> b < a.
Proof. apply ltb_lt. Qed.


Lemma leb_le (a b : Q) : JS.leb a b = true <-> a <= b.
Proof. apply Qle_bool_iff. Qed.


Lemma max_min_bounds (s lo hi : Q) :
  lo <= hi -> lo <= JS.max (JS.min s hi) lo <= hi.
Proof.
  intros H. unfold JS.max, JS.min. split.
  - apply Q.le_max_r.
  - apply Q.max_lub; [apply Q.le_min_r | exact H].
Qed.

(** [Math.floor(a / b)] on integers is the floor division of [Z]. *)
Lemma floor_div (a b : Z) :
  (0 < b)%Z -> JS.floor (inject_Z a / inject_Z b) = (a / b)%Z.
Proof.
  intros Hb. destruct b as [|p|p]; try lia.
  unfold JS.floor, Qdiv, Qinv, Qmult, inject_Z, Qfloor. simpl.
  now rewrite Z.mul_1_r.
Qed.

(** ** The heading-error loops run to completion

    The two [while] loops of the AI are modelled with a number of turns
    computed from the angle; these lemmas show that number is enough: the
    normalised heading error satisfies both exit conditions. *)








(** ** Properties of the loop *)

Section Properties.

Context `{M : JS.MathLib}.
Variable track : TrackData.
Variable carConfig : CarConfig.


Lemma car_frameStep (s : GameState) (f : Frame) :
  car (frameStep track carConfig s f) =
    let moved := physicsStep carConfig (frameDt f) (frameKeys track carConfig s f)
                   (arbitrated track carConfig s f) in
    if isOffTrack track (fst (closestPoint track (car s))) then offTrackCar moved
    else moved.
Proof.
  unfold frameStep, runGameLoop, arbitrated, frameKeys, frameDt.
  cbn [car keys pressKeys].
  destruct (lapComplete _ _); reflexivity.
Qed.

Lemma currentTopSpeed_multiplier (c : Car) :
  currentTopSpeed carConfig c == topSpeed carConfig * boostMultiplier c.
Proof.
  unfold currentTopSpeed, boostMultiplier. destruct (boosting c); ring.
Qed.

Lemma clampSpeed_bounds (c : Car) (v : Q) :
  0 <= topSpeed carConfig ->
  - (topSpeed carConfig * boostMultiplier c) / 3
    <= clampSpeed carConfig c v
    <= topSpeed carConfig * boostMultiplier c.
Proof.
  intros Htop. unfold clampSpeed.
  assert (Hm : 0 <= currentTopSpeed carConfig c).
  { rewrite currentTopSpeed_multiplier. unfold boostMultiplier.
    destruct (boosting c); lra. }
  pose proof (max_min_bounds v (- currentTopSpeed carConfig c / 3)
                (currentTopSpeed carConfig c)) as H.
  rewrite <- currentTopSpeed_multiplier.
  apply H. qlra.
Qed.

(** C1 (as the code has it): after every frame of every run the speed
    lies within [-T/3, T], where T is the top speed times 1.5 when the
    boost timer is positive as the physics of that frame reads it (after
    the frame's drift logic, before the timer is decremented), and the
    plain top speed otherwise.  The reverse limit scales with the boost. *)
Theorem speed_within_current_limits (s0 : GameState) (fs : list Frame) (f : Frame) :
  0 <= topSpeed carConfig ->
  let s := run track carConfig fs s0 in
  let T := topSpeed carConfig * boostMultiplier (arbitrated track carConfig s f) in
  - T / 3 <= speed (car (run track carConfig (fs ++ [f]) s0)) <= T.
Proof.
  intros Htop s T. unfold run. rewrite foldl_app. cbn [foldl].
  fold (run track carConfig fs s0). fold s. rewrite car_frameStep. cbv zeta.
  pose proof (clampSpeed_bounds (arbitrated track carConfig s f)
                (throttle carConfig (frameDt f) (frameKeys track carConfig s f)
                   (arbitrated track carConfig s f))
                Htop) as Hc.
  fold T in Hc.
  destruct (isOffTrack _ _); cbn [speed offTrackCar physicsStep].
  - assert (0 <= T).
    { unfold T, boostMultiplier. destruct (boosting _); lra. }
    qlra.
  - exact Hc.
Qed.




(** *** Laps *)

Lemma scanPoints_index (c : Car) (pts : list Point) (i : Z) (best : JS.Num * Z) :
  snd (scanPoints c pts i best) = snd best
  \/ (i <= snd (scanPoints c pts i best) < i + Z.of_nat (List.length pts))%Z.
Proof.
  revert i best. induction pts as [|p rest IH]; intros i best; cbn [scanPoints].
  - now left.
  - match goal with
    | |- context [scanPoints c rest ?j ?b] => destruct (IH j b) as [H | H]
    end.
    + rewrite H. destruct (JS.lt_num _ _); cbn [snd List.length].
      * right. lia.
      * now left.
    + right. cbn [List.length]. lia.
Qed.

(** On a track with points the scan always ends on one of them. *)
Lemma closestIndex_in_range (s : GameState) :
  points track <> [] ->
  (0 <= closestIndex track s < Z.of_nat (List.length (points track)))%Z.
Proof.
  unfold closestIndex, closestPoint. destruct (points track) as [|p rest]; [easy |].
  intros _. cbn [scanPoints fst JS.lt_num].
  match goal with
  | |- context [scanPoints ?c rest ?j ?b] =>
      destruct (scanPoints_index c rest j b) as [H | H]
  end.
  - rewrite H. cbn [snd List.length]. lia.
  - cbn [List.length]. lia.
Qed.

Lemma closestIndex_pressKeys (evs : list KeyEvent) (s : GameState) :
  closestIndex track (pressKeys evs s) = closestIndex track s.
Proof. reflexivity. Qed.

Lemma telemetry_frameStep (s : GameState) (f : Frame) :
  telemetry (frameStep track carConfig s f) =
    if lapComplete (closestIndex track s) (markedCheckpoints track s) then
      telemetry s ++
        [lapRecord f (pressKeys (events f) s)
           (if isOffTrack track (fst (closestPoint track (car s)))
            then offTrackTelemetry (currentTelemetry s)
            else currentTelemetry s)]
    else telemetry s.
Proof.
  unfold frameStep, runGameLoop, markedCheckpoints, closestIndex.
  cbn [car keys checkpoints telemetry currentTelemetry pressKeys].
  destruct (lapComplete _ _); reflexivity.
Qed.

Lemma checkpoints_frameStep (s : GameState) (f : Frame) :
  checkpoints (frameStep track carConfig s f) =
    if lapComplete (closestIndex track s) (markedCheckpoints track s) then
      map (fun _ => false) (markedCheckpoints track s)
    else markedCheckpoints track s.
Proof.
  unfold frameStep, runGameLoop, markedCheckpoints, closestIndex.
  cbn [car keys checkpoints telemetry currentTelemetry pressKeys].
  destruct (lapComplete _ _); reflexivity.
Qed.

Lemma flag_insert_ne (cps : list bool) (n i : nat) :
  n <> i -> flag (<[n := true]> cps) i = flag cps i.
Proof.
  intros Hne. unfold flag. now rewrite list_lookup_insert_ne.
Qed.

(** A frame whose closest point is outside section [q] leaves flag [q]
    as it was. *)
Lemma flag_markCheckpoint_other (idx : Z) (cps : list bool) (q : nat) :
  currentSection track idx <> Some (Z.of_nat q) ->
  flag (markCheckpoint track idx cps) q = flag cps q.
Proof.
  intros Hq. unfold markCheckpoint.
  destruct (currentSection track idx) as [sec|]; [| reflexivity].
  destruct ((0 <=? sec)%Z && (sec <? 4)%Z) eqn:Hr; [| reflexivity].
  apply flag_insert_ne. intros <-. apply Hq. f_equal.
  apply andb_true_iff in Hr as [H0 _]. apply Z.leb_le in H0. lia.
Qed.

Lemma lapComplete_spec (idx : Z) (cps : list bool) :
  lapComplete idx cps = true
  <-> (idx < 10)%Z /\ flag cps 2 = true /\ flag cps 3 = true.
Proof.
  unfold lapComplete. rewrite !andb_true_iff, Z.ltb_lt. tauto.
Qed.

(** While flag [q] (2 or 3) is clear and nothing is recorded, a frame
    outside section [q] keeps it so. *)
Lemma no_lap_step (q : nat) (s : GameState) (f : Frame) :
  q = 2%nat \/ q = 3%nat ->
  flag (checkpoints s) q = false ->
  telemetry s = [] ->
  currentSection track (closestIndex track s) <> Some (Z.of_nat q) ->
  flag (checkpoints (frameStep track carConfig s f)) q = false
  /\ telemetry (frameStep track carConfig s f) = [].
Proof.
  intros Hq Hflag Htel Hsec.
  assert (Hm : flag (markedCheckpoints track s) q = false).
  { unfold markedCheckpoints. now rewrite flag_markCheckpoint_other. }
  assert (Hl : lapComplete (closestIndex track s) (markedCheckpoints track s) = false).
  { apply not_true_iff_false. rewrite lapComplete_spec. intros (_ & H2 & H3).
    destruct Hq; subst q; congruence. }
  rewrite checkpoints_frameStep, telemetry_frameStep, Hl. now split.
Qed.

Lemma no_lap_run (q : nat) (fs : list Frame) (s0 : GameState) :
  q = 2%nat \/ q = 3%nat ->
  flag (checkpoints s0) q = false ->
  telemetry s0 = [] ->
  ~ entersSection track carConfig (Z.of_nat q) s0 fs ->
  telemetry (run track carConfig fs s0) = [].
Proof.
  intros Hq. revert s0. induction fs as [|f fs IH]; intros s0 Hflag Htel Hno.
  - exact Htel.
  - assert (Hsec : currentSection track (closestIndex track s0) <> Some (Z.of_nat q)).
    { intros H. apply Hno. exists 0%nat. split; [cbn; lia | exact H]. }
    destruct (no_lap_step q s0 f Hq Hflag Htel Hsec) as [Hf Ht].
    change (run track carConfig (f :: fs) s0)
      with (run track carConfig fs (frameStep track carConfig s0 f)).
    apply IH; [exact Hf | exact Ht |].
    intros (n & Hn & Hs). apply Hno. exists (S n). split; [cbn; lia |].
    exact Hs.
Qed.

Lemma mount_state (now : Q) (s0 : GameState) :
  mountGameCanvas track now = Ready s0 ->
  points track <> []
  /\ checkpoints s0 = [false; false; false; false]
  /\ telemetry s0 = []
  /\ laps s0 = 0%Z
  /\ currentTelemetry s0 = mkCur 0 0%Z 0%Z.
Proof.
  unfold mountGameCanvas. destruct (points track) as [|p rest]; [discriminate |].
  intros [= <-]. repeat split. discriminate.
Qed.

(** C3: on a track with points, a frame appends one LapTelemetry record
    exactly when its closest-point index is among the first ten points
    and, once the frame has marked its own section, the flags of quarters
    2 and 3 are both set; otherwise the records are unchanged.  Hence a
    session whose frames never start in section 2, or never start in
    section 3, records no lap at all. *)
Theorem lap_recorded_exactly_when (s : GameState) (f : Frame) :
  points track <> [] ->
  let idx := closestIndex track s in
  let cps := markedCheckpoints track s in
  let complete := (0 <= idx < 10)%Z /\ flag cps 2 = true /\ flag cps 3 = true in
  (complete -> exists r, telemetry (frameStep track carConfig s f) = telemetry s ++ [r])
  /\ (~ complete -> telemetry (frameStep track carConfig s f) = telemetry s)
  /\ (forall now s0 fs,
        mountGameCanvas track now = Ready s0 ->
        ~ entersSection track carConfig 2 s0 fs
        \/ ~ entersSection track carConfig 3 s0 fs ->
        telemetry (run track carConfig fs s0) = []).
Proof.
  intros Hpts idx cps complete.
  pose proof (closestIndex_in_range s Hpts) as Hidx. fold idx in Hidx.
  assert (Hc : lapComplete idx cps = true <-> complete).
  { rewrite lapComplete_spec. unfold complete. intuition lia. }
  pose proof (telemetry_frameStep s f) as Ht. fold idx cps in Ht.
  split; [| split].
  - intros H. apply Hc in H. rewrite H in Ht. eauto.
  - intros H. destruct (lapComplete idx cps); [| exact Ht].
    exfalso. apply H, Hc. reflexivity.
  - intros now s0 fs Hm Hno.
    destruct (mount_state now s0 Hm) as (_ & Hcp & Htel & _).
    destruct Hno as [Hno | Hno].
    + apply (no_lap_run 2 fs s0); auto. now rewrite Hcp.
    + apply (no_lap_run 3 fs s0); auto. now rewrite Hcp.
Qed.

(** *** Checkpoints *)

Lemma checkpointZone_div :
  checkpointZone track = (Z.of_nat (List.length (points track)) / 4)%Z.
Proof.
  unfold checkpointZone, totalPoints.
  change 4 with (inject_Z 4). now apply floor_div.
Qed.

(** C5 (as the code has it): the section of a frame is
    floor(closestPointIndex / floor(trackLength / 4)) and its flag is set
    only when that section is one of 0..3.  Nothing is clamped: an index
    at or past 4 * floor(trackLength / 4), and any index on a track of
    fewer than four points, marks no checkpoint in that frame. *)
Theorem checkpoint_marked_only_in_range (s : GameState) :
  points track <> [] ->
  let n := Z.of_nat (List.length (points track)) in
  let zone := (n / 4)%Z in
  let idx := closestIndex track s in
  ((4 <= n)%Z -> (idx < 4 * zone)%Z ->
     (0 <= idx / zone < 4)%Z
     /\ markedCheckpoints track s
        = <[Z.to_nat (idx / zone) := true]> (checkpoints s))
  /\ ((n < 4)%Z \/ (4 * zone <= idx)%Z ->
      markedCheckpoints track s = checkpoints s).
Proof.
  intros Hpts n zone idx.
  pose proof (closestIndex_in_range s Hpts) as Hidx. fold idx n in Hidx.
  assert (Hz : checkpointZone track = zone) by apply checkpointZone_div.
  unfold markedCheckpoints, markCheckpoint, currentSection.
  fold idx. rewrite Hz. split.
  - intros Hn Hlt.
    assert (Hzone : (0 < zone)%Z).
    { unfold zone. apply Z.div_str_pos. lia. }
    assert (Hq : (0 <= idx / zone < 4)%Z).
    { split; [apply Z.div_pos; lia |].
      apply Z.div_lt_upper_bound; lia. }
    destruct (Z.eqb_spec zone 0) as [E | _]; [lia |].
    rewrite floor_div by exact Hzone.
    destruct (Z.leb_spec 0 (idx / zone)); [| lia].
    destruct (Z.ltb_spec (idx / zone) 4); [| lia].
    split; [exact Hq | reflexivity].
  - intros Hout.
    destruct (Z.eqb_spec zone 0) as [E | Hne]; [reflexivity |].
    assert (Hzone : (0 < zone)%Z).
    { assert (0 <= zone)%Z by (unfold zone; apply Z.div_pos; lia). lia. }
    destruct Hout as [Hn | Hge].
    + exfalso. apply Hne. unfold zone. apply Z.div_small. lia.
    + rewrite floor_div by exact Hzone.
      assert (4 <= idx / zone)%Z.
      { apply Z.div_le_lower_bound; lia. }
      destruct (Z.ltb_spec (idx / zone) 4); [lia |].
      now rewrite andb_false_r.
Qed.

(** *** Drift charge *)

Lemma driftCharge_frameStep (s : GameState) (f : Frame) :
  drifting (car (frameStep track carConfig s f)) = false ->
  driftCharge (car (frameStep track carConfig s f)) = 0.
Proof.
  rewrite car_frameStep. cbv zeta.
  destruct (isOffTrack _ _); [reflexivity |].
  cbn [drifting driftCharge physicsStep].
  unfold arbitrated, driftStep.
  destruct (Shift _ && _ && _); cbn; [discriminate | reflexivity].
Qed.


(** *** Session end *)

Lemma min_cases (a b : Q) : JS.min a b = a \/ JS.min a b = b.
Proof.
  unfold JS.min, Qmin, GenericMinMax.gmin. destruct (a ?= b); auto.
Qed.

Lemma minOf_le_start (t : Q) (rest : list Q) : minOf t rest <= t.
Proof.
  unfold minOf. revert t. induction rest as [|r rest IH]; intros t; cbn [foldl].
  - lra.
  - eapply Qle_trans; [apply IH |]. apply Q.le_min_l.
Qed.

Lemma minOf_lower (t : Q) (rest : list Q) (q : Q) :
  In q (t :: rest) -> minOf t rest <= q.
Proof.
  unfold minOf. revert t. induction rest as [|r rest IH]; intros t [-> | Hin];
    cbn [foldl].
  - lra.
  - destruct Hin.
  - eapply Qle_trans; [apply (minOf_le_start (JS.min q r) rest) |].
    apply Q.le_min_l.
  - destruct Hin as [-> | Hin].
    + eapply Qle_trans; [apply (minOf_le_start (JS.min t q) rest) |].
      apply Q.le_min_r.
    + apply IH. now right.
Qed.

Lemma minOf_member (t : Q) (rest : list Q) : In (minOf t rest) (t :: rest).
Proof.
  unfold minOf. revert t. induction rest as [|r rest IH]; intros t; cbn [foldl].
  - now left.
  - destruct (IH (JS.min t r)) as [H | H].
    + rewrite <- H. destruct (min_cases t r) as [-> | ->].
      * now left.
      * right. now left.
    + right. now right.
Qed.

Lemma laps_frameStep (s : GameState) (f : Frame) :
  laps s = Z.of_nat (List.length (telemetry s)) ->
  laps (frameStep track carConfig s f)
  = Z.of_nat (List.length (telemetry (frameStep track carConfig s f))).
Proof.
  intros H. rewrite telemetry_frameStep.
  unfold frameStep, runGameLoop, markedCheckpoints, closestIndex.
  cbn [car keys checkpoints telemetry currentTelemetry pressKeys laps].
  destruct (lapComplete _ _); cbn [laps]; [| exact H].
  rewrite length_app. cbn [List.length]. lia.
Qed.

Lemma laps_run (fs : list Frame) (s0 : GameState) :
  laps s0 = Z.of_nat (List.length (telemetry s0)) ->
  laps (run track carConfig fs s0)
  = Z.of_nat (List.length (telemetry (run track carConfig fs s0))).
Proof.
  revert s0. induction fs as [|f fs IH]; intros s0 H; [exact H |].
  change (run track carConfig (f :: fs) s0)
    with (run track carConfig fs (frameStep track carConfig s0 f)).
  apply IH, laps_frameStep, H.
Qed.

(** C6: the statistics handed over at session end carry the recorded
    laps unchanged; bestLap is absent exactly when there is no lap and is
    otherwise the time of a recorded lap that no recorded lap undercuts;
    in a session started by the mount, totalLaps is the number of records,
    so a session ended before any lap has totalLaps 0, no bestLap and no
    telemetry. *)
Theorem best_lap_is_minimum (stamp : string) (s : GameState) :
  let stats := finishRace stamp s in
  stats_telemetry stats = telemetry s
  /\ (bestLap stats = None <-> telemetry s = [])
  /\ (forall m, bestLap stats = Some m ->
       (exists lap, In lap (telemetry s) /\ time lap = m)
       /\ (forall lap, In lap (telemetry s) -> m <= time lap))
  /\ (forall now s0 fs,
        mountGameCanvas track now = Ready s0 ->
        s = run track carConfig fs s0 ->
        totalLaps stats = Z.of_nat (List.length (telemetry s))
        /\ (telemetry s = [] ->
            totalLaps stats = 0%Z /\ bestLap stats = None
            /\ stats_telemetry stats = [])).
Proof.
  cbv zeta. unfold finishRace. cbn [stats_telemetry bestLap totalLaps].
  split; [reflexivity |]. split; [| split].
  - destruct (telemetry s); split; congruence.
  - intros m. destruct (telemetry s) as [|t rest]; [discriminate |].
    intros [= <-]. split.
    + pose proof (minOf_member (time t) (map time rest)) as H.
      change (time t :: map time rest) with (map time (t :: rest)) in H.
      apply in_map_iff in H as (lap & Hl & Hin). eauto.
    + intros lap Hin. apply minOf_lower.
      change (time t :: map time rest) with (map time (t :: rest)).
      now apply in_map.
  - intros now s0 fs Hm ->.
    destruct (mount_state now s0 Hm) as (_ & _ & Htel & Hlaps & _).
    assert (Hl : laps (run track carConfig fs s0)
                 = Z.of_nat (List.length (telemetry (run track carConfig fs s0)))).
    { apply laps_run. now rewrite Htel, Hlaps. }
    split; [exact Hl |].
    intros He. rewrite Hl, He. now repeat split.
Qed.

(** *** Session setup *)



(** *** Effects *)

(** C9: the particles, the skid marks, their id counter and the random
    draws never reach the physics or the telemetry: two frames that start
    from states with the same car, keys, lap count, lap timer, checkpoint
    flags, records and accumulators end in states with the same ones,
    whatever the effect lists and the random numbers are. *)
Theorem effects_do_not_feed_back (s1 s2 : GameState) (f1 f2 : Frame) :
  physicsView s1 = physicsView s2 ->
  sameInputs f1 f2 ->
  physicsView (frameStep track carConfig s1 f1)
  = physicsView (frameStep track carConfig s2 f2).
Proof.
  destruct s1 as [c1 k1 ps1 sk1 l1 t1 cp1 tel1 cur1 n1].
  destruct s2 as [c2 k2 ps2 sk2 l2 t2 cp2 tel2 cur2 n2].
  destruct f1 as [d1 a1 r1 e1 nl1 nr1], f2 as [d2 a2 r2 e2 nl2 nr2].
  unfold physicsView, sameInputs. cbn [car keys laps lapStartTime checkpoints
    telemetry currentTelemetry delta aiMode events nowLap nowReset].
  intros [= -> -> -> -> -> -> ->] (-> & -> & -> & -> & ->).
  unfold frameStep, runGameLoop.
  cbn [car keys laps lapStartTime checkpoints telemetry currentTelemetry
       delta aiMode events nowLap nowReset pressKeys particles skidMarks
       particleIdCounter].
  destruct (lapComplete _ _); reflexivity.
Qed.

(** *** Collisions *)





End Properties.


(** ** Properties of the summariser *)

Section Summariser.

Import Gemini.

Variable toFixed : Q -> nat -> string.
Variable showInt : Z -> string.

Abbreviation analyze := (analyzeRacePerformance toFixed showInt).
Abbreviation showAnalysis := (showAnalysis toFixed showInt).

Lemma analyze_cases (svc : Service) (stats : GameSessionStats) :
  analyze svc stats =
    match getAI svc with
    | Thrown _ => Returned radioDownMessage
    | Returned _ =>
        match generateContent svc modelId (prompt toFixed showInt stats) with
        | Thrown _ => Returned radioDownMessage
        | Returned r => Returned (orElse (text r) noDataMessage)
        end
    end.
Proof.
  unfold analyzeRacePerformance, tryCatch, bind.
  destruct (getAI svc); [| reflexivity].
  destruct (generateContent _ _ _); reflexivity.
Qed.

(** C8: when the external call fails, the caller gets a fixed string
    and no fault: the radio-down message if building the client or the
    generation call throws, the no-data message if the response has no
    text or an empty one.  [analyzeRacePerformance] never throws, so the
    CrewChief shows that string without raising its error flag, and the
    statistics the App holds are the same afterwards. *)
Theorem summarizer_failure_yields_fallback
    (svc : Service) (stats : GameSessionStats) (a : AppState) :
  lastSessionStats a = Some stats ->
  let call := generateContent svc modelId (prompt toFixed showInt stats) in
  let a' := showAnalysis svc a in
  ((exists e, getAI svc = Thrown e) \/ (exists e, call = Thrown e) ->
     analyze svc stats = Returned radioDownMessage
     /\ analysis (crewChief a') = radioDownMessage)
  /\ (forall r,
        getAI svc = Returned tt -> call = Returned r ->
        text r = None \/ text r = Some EmptyString ->
        analyze svc stats = Returned noDataMessage
        /\ analysis (crewChief a') = noDataMessage)
  /\ (exists msg, analyze svc stats = Returned msg)
  /\ lastSessionStats a' = Some stats
  /\ error (crewChief a') = error (crewChief a)
  /\ loading (crewChief a') = false.
Proof.
  intros Hs call a'. subst a'. unfold Gemini.showAnalysis, fetchAnalysis.
  rewrite Hs, analyze_cases. fold call.
  split; [| split; [| split]].
  - intros [[e He] | [e He]].
    + rewrite He. now split.
    + rewrite He. destruct (getAI svc); now split.
  - intros r Hg Hc Ht. rewrite Hg, Hc.
    destruct Ht as [-> | ->]; now split.
  - destruct (getAI svc); [| eauto]. destruct call; eauto.
  - destruct (getAI svc); [destruct call |]; now repeat split.
Qed.

End Summariser.

(** ** More properties of the loop *)

Section Scan.

Context `{M : JS.MathLib}.
Variable track : TrackData.

Lemma lt_num_atMost (d : Q) (m : JS.Num) (q : Q) :
  JS.lt_num d m = false -> d <= q -> atMost m q.
Proof.
  destruct m as [a|]; cbn; [| discriminate].
  intros H Hd. apply ltb_ge in H. lra.
Qed.

Lemma atMost_trans (m : JS.Num) (a b : Q) : atMost m a -> a <= b -> atMost m b.
Proof. destruct m; cbn; [lra | easy]. Qed.

Lemma numLe_lt_num (d : Q) (m m' : JS.Num) :
  atMost m d -> JS.lt_num d m' = true -> numLe m m'.
Proof.
  destruct m' as [b|]; cbn; [| easy].
  intros H Hlt. apply ltb_lt in Hlt. eapply atMost_trans; [exact H | lra].
Qed.

Lemma numLe_refl_atMost (m : JS.Num) (d : Q) :
  JS.lt_num d m = false -> numLe m m.
Proof.
  destruct m as [a|]; cbn; [lra | easy].
Qed.

Lemma lt_num_numLe (d : Q) (m m' : JS.Num) :
  JS.lt_num d m = true -> numLe m m' -> JS.lt_num d m' = true.
Proof.
  destruct m' as [b|]; [| easy]. destruct m as [a|]; cbn; [| easy].
  intros H Hle. apply ltb_lt in H. apply ltb_lt. lra.
Qed.

(** What the scan returns: a minimum no larger than the seed, which is
    either the seed itself or the distance of the first point that
    achieves it. *)
Lemma scanPoints_spec (c : Car) (pts : list Point) (i : Z) (best : JS.Num * Z) :
  let r := scanPoints c pts i best in
  (forall q, In q pts -> atMost (fst r) (distanceTo c q))
  /\ numLe (fst r) (fst best)
  /\ (r = best
      \/ exists (k : nat) (p : Point),
           pts !! k = Some p
           /\ r = (JS.Finite (distanceTo c p), (i + Z.of_nat k)%Z)
           /\ JS.lt_num (distanceTo c p) (fst best) = true
           /\ forall (j : nat) (q : Point),
                (j < k)%nat -> pts !! j = Some q ->
                distanceTo c p < distanceTo c q).
Proof.
  revert i best. induction pts as [|p rest IH]; intros i best; cbn [scanPoints].
  - split; [intros q [] |]. split; [| now left].
    destruct (fst best); cbn; [lra | easy].
  - fold (distanceTo c p).
    destruct (JS.lt_num (distanceTo c p) (fst best)) eqn:Hlt.
    + destruct (IH (i + 1)%Z (JS.Finite (distanceTo c p), i)) as (Hall & Hle & Hwho).
      cbn zeta in *. cbn [fst] in Hle.
      set (r := scanPoints c rest (i + 1)%Z (JS.Finite (distanceTo c p), i)) in *.
      split; [| split].
      * intros q [<- | Hin]; [exact Hle | now apply Hall].
      * eapply numLe_lt_num; [exact Hle | exact Hlt].
      * right. destruct Hwho as [-> | (k & p' & Hk & -> & Hlt' & Hfirst)].
        -- exists 0%nat, p. split; [reflexivity |].
           split; [now rewrite Z.add_0_r |]. split; [exact Hlt |]. lia.
        -- exists (S k), p'. split; [exact Hk |].
           split; [f_equal; lia |].
           cbn [fst JS.lt_num] in Hlt'. apply ltb_lt in Hlt'.
           split.
           ++ destruct (fst best) as [b|]; [| reflexivity].
              cbn in *. apply ltb_lt in Hlt. apply ltb_lt. lra.
           ++ intros [|j] q Hj Hq.
              ** cbn in Hq. injection Hq as <-. exact Hlt'.
              ** apply (Hfirst j q); [lia | exact Hq].
    + destruct (IH (i + 1)%Z best) as (Hall & Hle & Hwho).
      cbn zeta in *.
      set (r := scanPoints c rest (i + 1)%Z best) in *.
      assert (Hp : atMost (fst r) (distanceTo c p)).
      { destruct (fst best) as [b|] eqn:Eb; [| discriminate].
        cbn in Hlt, Hle. apply ltb_ge in Hlt.
        eapply atMost_trans; [exact Hle | exact Hlt]. }
      split; [| split].
      * intros q [<- | Hin]; [exact Hp | now apply Hall].
      * exact Hle.
      * destruct Hwho as [-> | (k & p' & Hk & -> & Hlt' & Hfirst)]; [now left |].
        right. exists (S k), p'. split; [exact Hk |].
        split; [f_equal; lia |]. split; [exact Hlt' |].
        intros [|j] q Hj Hq.
        -- cbn in Hq. injection Hq as <-.
           destruct (fst best) as [b|]; [| discriminate].
           cbn in Hlt, Hlt'. apply ltb_ge in Hlt. apply ltb_lt in Hlt'. lra.
        -- apply (Hfirst j q); [lia | exact Hq].
Qed.

(** X1: on a track with points the scan returns the index of a track
    point together with its distance from the car; no point of the track
    is nearer, and every point before it in the list is strictly farther:
    ties go to the first occurrence. *)
Theorem closest_point_is_first_nearest (s : GameState) :
  points track <> [] ->
  exists p : Point,
    points track !! Z.to_nat (closestIndex track s) = Some p
    /\ (0 <= closestIndex track s)%Z
    /\ fst (closestPoint track (car s)) = JS.Finite (distanceTo (car s) p)
    /\ (forall q, In q (points track) ->
          distanceTo (car s) p <= distanceTo (car s) q)
    /\ (forall (j : nat) (q : Point),
          (j < Z.to_nat (closestIndex track s))%nat ->
          points track !! j = Some q ->
          distanceTo (car s) p < distanceTo (car s) q).
Proof.
  intros Hpts. unfold closestIndex, closestPoint.
  destruct (scanPoints_spec (car s) (points track) 0%Z (JS.Infinity, (-1)%Z))
    as (Hall & _ & Hwho).
  cbn zeta in *.
  destruct Hwho as [Hr | (k & p & Hk & Hr & _ & Hfirst)].
  - exfalso. destruct (points track) as [|q rest]; [easy |].
    specialize (Hall q (or_introl eq_refl)). rewrite Hr in Hall. exact Hall.
  - rewrite Hr in *. cbn [fst snd] in *. exists p.
    rewrite Z.add_0_l, Nat2Z.id.
    split; [exact Hk |]. split; [lia |]. split; [reflexivity |].
    split; [exact Hall | exact Hfirst].
Qed.

End Scan.

Section Driving.

Context `{M : JS.MathLib}.
Variable track : TrackData.
Variable carConfig : CarConfig.

(** *** The autonomous driver *)

(** X2: with the AI on, on a track with points, the keys of the frame
    never hold both steering keys, hold exactly one of ArrowUp and
    ArrowDown, and hold Shift only on HARD and only above speed 20. *)
Theorem ai_keys_are_consistent (s : GameState) (f : Frame) :
  points track <> [] ->
  aiMode f <> OFF ->
  let k := frameKeys track carConfig s f in
  ArrowLeft k && ArrowRight k = false
  /\ ArrowDown k = negb (ArrowUp k)
  /\ (Shift k = true -> aiMode f = HARD /\ 20 < JS.abs (speed (car s))).
Proof.
  intros Hpts Hmode. unfold frameKeys, aiControl.
  pose proof (closestIndex_in_range track s Hpts) as Hidx.
  unfold closestIndex in Hidx.
  destruct (Z.eqb_spec (snd (closestPoint track (car s))) (-1)) as [E | _]; [lia |].
  assert (Hoff : isOFF (aiMode f) = false) by (destruct (aiMode f); easy).
  rewrite Hoff. cbn [negb andb]. cbv zeta. cbn [ArrowLeft ArrowRight ArrowUp ArrowDown Shift].
  split; [| split].
  - destruct (JS.gtb _ 0.05); [| now rewrite andb_false_r].
    reflexivity.
  - reflexivity.
  - intros H. apply andb_true_iff in H as [H Hs].
    apply andb_true_iff in H as [Hh _].
    split; [destruct (aiMode f); easy | now apply gtb_gt].
Qed.

(** X3: the AI, when on, decides the keys alone: the keyboard state and
    the key events of the frame have no effect.  When it is off the keys
    are the keyboard's.  Either way the keys a frame used stay in the game
    state, so a frame with the AI off and no key event drives with the keys
    of the frame before it, the AI's included. *)
Theorem ai_overrides_the_keyboard (s : GameState) (f : Frame) :
  (points track <> [] -> aiMode f <> OFF ->
   forall s' f',
     car s' = car s -> aiMode f' = aiMode f ->
     frameKeys track carConfig s' f' = frameKeys track carConfig s f)
  /\ (aiMode f = OFF ->
      frameKeys track carConfig s f = foldl handleKeyEvent (keys s) (events f))
  /\ keys (frameStep track carConfig s f) = frameKeys track carConfig s f
  /\ (forall f2,
        aiMode f2 = OFF -> events f2 = [] ->
        frameKeys track carConfig (frameStep track carConfig s f) f2
        = frameKeys track carConfig s f).
Proof.
  assert (Hkeys : keys (frameStep track carConfig s f) = frameKeys track carConfig s f).
  { unfold frameStep, runGameLoop, frameKeys. cbn [car keys pressKeys].
    destruct (lapComplete _ _); reflexivity. }
  split; [| split; [| split]].
  - intros Hpts Hmode s' f' Hc Hm. unfold frameKeys, aiControl.
    rewrite Hc, Hm.
    pose proof (closestIndex_in_range track s Hpts) as Hidx.
    unfold closestIndex in Hidx.
    destruct (Z.eqb_spec (snd (closestPoint track (car s))) (-1)) as [E | _]; [lia |].
    assert (Hoff : isOFF (aiMode f) = false) by (destruct (aiMode f); easy).
    now rewrite Hoff.
  - intros Hoff. unfold frameKeys, aiControl. now rewrite Hoff.
  - exact Hkeys.
  - intros f2 Hoff Hev. unfold frameKeys at 1. unfold aiControl.
    rewrite Hoff, Hev. cbn [isOFF negb andb foldl]. exact Hkeys.
Qed.

(** *** Drift and boost *)

Lemma drifting_frameStep (s : GameState) (f : Frame) :
  drifting (car (frameStep track carConfig s f)) =
    negb (offTrackAt track s) && drifting (arbitrated track carConfig s f).
Proof.
  rewrite car_frameStep. cbv zeta. unfold offTrackAt.
  destruct (isOffTrack _ _); reflexivity.
Qed.

(** X5: a frame ends with the car drifting only if it started on the
    track, Shift is among its keys, the car was faster than 10 (either way)
    and either a steering key is held or the car was drifting already. *)
Theorem drifting_needs_speed_and_steering (s : GameState) (f : Frame) :
  drifting (car (frameStep track carConfig s f)) = true ->
  let k := frameKeys track carConfig s f in
  offTrackAt track s = false
  /\ Shift k = true
  /\ 10 < JS.abs (speed (car s))
  /\ (ArrowLeft k = true \/ ArrowRight k = true \/ drifting (car s) = true).
Proof.
  rewrite drifting_frameStep. intros H k.
  apply andb_true_iff in H as [Hoff Hd].
  apply negb_true_iff in Hoff. split; [exact Hoff |].
  unfold arbitrated, driftStep in Hd. fold k in Hd.
  destruct (Shift k && JS.gtb (JS.abs (speed (car s))) 10
            && (ArrowLeft k || ArrowRight k || drifting (car s))) eqn:E;
    [| discriminate Hd].
  apply andb_true_iff in E as [E Ht]. apply andb_true_iff in E as [Hs Hv].
  split; [exact Hs |]. split; [now apply gtb_gt |].
  apply orb_true_iff in Ht as [Ht | Ht]; [| auto].
  apply orb_true_iff in Ht as [Ht | Ht]; auto.
Qed.







End Driving.

(** *** Heading *)




Section Steering.

Context `{M : JS.MathLib}.
Variable track : TrackData.
Variable carConfig : CarConfig.

Lemma speed_arbitrated (s : GameState) (f : Frame) :
  speed (arbitrated track carConfig s f) = speed (car s).
Proof.
  unfold arbitrated, driftStep. now destruct (_ && _ && _).
Qed.



Lemma clamp_shrinks (v lo hi : Q) :
  lo <= 0 -> 0 <= hi -> Qabs (JS.max (JS.min v hi) lo) <= Qabs v.
Proof.
  intros Hlo Hhi. pose proof (Qle_Qabs v) as H1.
  pose proof (Qle_Qabs (- v)) as H2. rewrite Qabs_opp in H2.
  apply Qabs_Qle_condition. unfold JS.max, JS.min. split.
  - eapply Qle_trans; [| apply Q.le_max_l]. apply Q.min_glb; lra.
  - apply Q.max_lub; [| lra].
    eapply Qle_trans; [apply Q.le_min_l | exact H1].
Qed.

Lemma scale_shrinks (v a : Q) : 0 <= a <= 1 -> Qabs (v * a) <= Qabs v.
Proof.
  intros Ha. rewrite Qabs_Qmult.
  assert (Haa : Qabs a == a) by (apply Qabs_pos; lra).
  rewrite Haa. pose proof (Qabs_nonneg v) as Hv. nra.
Qed.

(** X7: with a top speed that is not negative, a frame whose keys hold
    neither ArrowUp nor ArrowDown never leaves the car faster than it
    found it: coasting, clamping and the off-track drag only shrink the
    speed. *)
Theorem coasting_never_speeds_up (s : GameState) (f : Frame) :
  0 <= topSpeed carConfig ->
  let k := frameKeys track carConfig s f in
  ArrowUp k = false -> ArrowDown k = false ->
  JS.abs (speed (car (frameStep track carConfig s f)))
  <= JS.abs (speed (car s)).
Proof.
  intros Htop k Hu Hd. unfold JS.abs. rewrite car_frameStep. cbv zeta.
  set (c1 := arbitrated track carConfig s f).
  assert (Hm : 0 <= currentTopSpeed carConfig c1).
  { rewrite currentTopSpeed_multiplier. unfold boostMultiplier.
    destruct (boosting c1); lra. }
  assert (Hp : Qabs (speed (physicsStep carConfig (frameDt f) k c1))
               <= Qabs (speed (car s))).
  { unfold physicsStep. cbv zeta. cbn [speed]. unfold clampSpeed.
    eapply Qle_trans; [apply clamp_shrinks; qlra |].
    unfold throttle. rewrite Hu, Hd. unfold c1. rewrite speed_arbitrated.
    apply scale_shrinks. destruct (drifting _); lra. }
  destruct (isOffTrack _ _); [| exact Hp].
  cbn [speed offTrackCar].
  eapply Qle_trans; [apply scale_shrinks; lra | exact Hp].
Qed.

End Steering.

(** *** Session bookkeeping *)

Section Session.

Context `{M : JS.MathLib}.
Variable track : TrackData.
Variable carConfig : CarConfig.

(** Everything the lap tracker writes in one frame. *)
Lemma bookkeeping_frameStep (s : GameState) (f : Frame) :
  let s' := frameStep track carConfig s f in
  let cur := if offTrackAt track s then offTrackTelemetry (currentTelemetry s)
             else currentTelemetry s in
  if lapCompletes track s then
    laps s' = (laps s + 1)%Z
    /\ lapStartTime s' = nowReset f
    /\ currentTelemetry s' = recordMaxSpeed (car s') (mkCur 0 0%Z 0%Z)
    /\ telemetry s' = telemetry s ++ [lapRecord f s cur]
    /\ checkpoints s' = map (fun _ => false) (markedCheckpoints track s)
  else
    laps s' = laps s
    /\ lapStartTime s' = lapStartTime s
    /\ currentTelemetry s' = recordMaxSpeed (car s') cur
    /\ telemetry s' = telemetry s
    /\ checkpoints s' = markedCheckpoints track s.
Proof.
  unfold frameStep, runGameLoop, lapCompletes, offTrackAt, markedCheckpoints,
    closestIndex.
  cbn [car keys checkpoints telemetry currentTelemetry pressKeys laps lapStartTime].
  destruct (lapComplete _ _); repeat split.
Qed.

Lemma run_invariant (Q : Frame -> Prop) (P : GameState -> Prop) :
  (forall s f, Q f -> P s -> P (frameStep track carConfig s f)) ->
  forall fs s0, Forall Q fs -> P s0 -> P (run track carConfig fs s0).
Proof.
  intros Hstep fs s0 Hfs. revert s0.
  induction Hfs as [|f fs Hf Hfs IH]; intros s0 H0; [exact H0 |].
  change (run track carConfig (f :: fs) s0)
    with (run track carConfig fs (frameStep track carConfig s0 f)).
  apply IH, Hstep; assumption.
Qed.


(** X13: whatever state a run starts from, it only appends to the lap
    records, and the lap counter grows by exactly the number of records
    appended. *)
Theorem telemetry_is_append_only (fs : list Frame) (s : GameState) :
  exists more : list LapTelemetry,
    telemetry (run track carConfig fs s) = telemetry s ++ more
    /\ laps (run track carConfig fs s) = (laps s + Z.of_nat (List.length more))%Z.
Proof.
  revert s. induction fs as [|f fs IH]; intros s.
  - exists []. cbn. rewrite app_nil_r. split; [reflexivity | lia].
  - change (run track carConfig (f :: fs) s)
      with (run track carConfig fs (frameStep track carConfig s f)).
    destruct (IH (frameStep track carConfig s f)) as (more & Ht & Hl).
    pose proof (bookkeeping_frameStep s f) as Hb. cbv zeta in Hb.
    destruct (lapCompletes track s).
    + destruct Hb as (Hlaps & _ & _ & Htel & _).
      eexists (_ :: more). rewrite Ht, Hl, Htel, Hlaps, <- app_assoc.
      split; [reflexivity | cbn [List.length]; lia].
    + destruct Hb as (Hlaps & _ & _ & Htel & _).
      exists more. rewrite Ht, Hl, Htel, Hlaps. now split.
Qed.


Lemma flag_all_false (l : list bool) (i : nat) :
  flag (map (fun _ => false) l) i = false.
Proof.
  unfold flag. revert i. induction l as [|b l IH]; intros [|i]; cbn; auto.
Qed.

(** X14: the frame after one that completed a lap never completes
    another: the flags were all cleared and one frame marks at most one of
    them, while a lap needs both quarter 2 and quarter 3. *)
Theorem no_lap_right_after_a_lap (s : GameState) (f1 f2 : Frame) :
  lapCompletes track s = true ->
  let s1 := frameStep track carConfig s f1 in
  lapCompletes track s1 = false
  /\ telemetry (frameStep track carConfig s1 f2) = telemetry s1.
Proof.
  intros Hdone s1.
  pose proof (bookkeeping_frameStep s f1) as Hb. cbv zeta in Hb.
  rewrite Hdone in Hb. destruct Hb as (_ & _ & _ & _ & Hcp). fold s1 in Hcp.
  assert (Hno : lapCompletes track s1 = false).
  { unfold lapCompletes. apply not_true_iff_false. rewrite lapComplete_spec.
    intros (_ & H2 & H3). unfold markedCheckpoints in H2, H3. rewrite Hcp in H2, H3.
    destruct (decide (currentSection track (closestIndex track s1) = Some 2%Z))
      as [E | E].
    - rewrite (flag_markCheckpoint_other track _ _ 3) in H3
        by (rewrite E; discriminate).
      now rewrite flag_all_false in H3.
    - rewrite (flag_markCheckpoint_other track _ _ 2) in H2 by exact E.
      now rewrite flag_all_false in H2. }
  split; [exact Hno |].
  pose proof (bookkeeping_frameStep s1 f2) as Hb. cbv zeta in Hb.
  rewrite Hno in Hb. now destruct Hb as (_ & _ & _ & Ht & _).
Qed.



End Session.

Section Accumulators.

Context `{M : JS.MathLib}.
Variable track : TrackData.
Variable carConfig : CarConfig.








End Accumulators.

(** *** Effects *)

Section EffectsBookkeeping.

Context `{M : JS.MathLib}.
Variable track : TrackData.
Variable carConfig : CarConfig.












End EffectsBookkeeping.

(** ** Keyboard, toolbar and App *)

(** X18: a key event writes only the key it names.  Reading back the
    key named by its code gives the value written; a key that is neither
    named by the code nor the Shift of a Shift event keeps its value; and
    an event that names no key of the object changes nothing. *)
Theorem key_event_writes_only_its_key (k : Keys) (e : KeyboardEvent) (v : bool) :
  (forall b, keyNamed k (code e) = Some b ->
     keyNamed (handleKey v e k) (code e) = Some v)
  /\ (forall name,
        name <> code e ->
        ~ (name = "Shift"%string /\ key e = "Shift"%string) ->
        keyNamed (handleKey v e k) name = keyNamed k name)
  /\ (keyNamed k (code e) = None -> key e <> "Shift"%string ->
      handleKey v e k = k)
  /\ (key e = "Shift"%string -> Shift (handleKey v e k) = v).
Proof.
  destruct k as [ku kd kl kr ks]. destruct e as [c ky].
  unfold handleKey, setOwnKey, setShift, keyNamed.
  cbn [code key ArrowUp ArrowDown ArrowLeft ArrowRight Shift].
  split; [| split; [| split]].
  - intros b.
    destruct (String.eqb_spec ky "Shift");
      destruct (String.eqb_spec c "ArrowUp"); [subst; cbn; congruence | | subst; cbn; congruence |];
      destruct (String.eqb_spec c "ArrowDown"); try (subst; cbn; congruence);
      destruct (String.eqb_spec c "ArrowLeft"); try (subst; cbn; congruence);
      destruct (String.eqb_spec c "ArrowRight"); try (subst; cbn; congruence);
      destruct (String.eqb_spec c "Shift"); try (subst; cbn; congruence).
  - intros name Hne Hshift.
    destruct (String.eqb_spec name "ArrowUp");
      [| destruct (String.eqb_spec name "ArrowDown");
         [| destruct (String.eqb_spec name "ArrowLeft");
            [| destruct (String.eqb_spec name "ArrowRight");
               [| destruct (String.eqb_spec name "Shift")]]]];
      destruct (String.eqb_spec ky "Shift");
      destruct (String.eqb_spec c "ArrowUp"); try (subst; cbn; tauto || congruence);
      destruct (String.eqb_spec c "ArrowDown"); try (subst; cbn; tauto || congruence);
      destruct (String.eqb_spec c "ArrowLeft"); try (subst; cbn; tauto || congruence);
      destruct (String.eqb_spec c "ArrowRight"); try (subst; cbn; tauto || congruence);
      destruct (String.eqb_spec c "Shift"); try (subst; cbn; tauto || congruence).
  - intros Hnone Hky.
    destruct (String.eqb_spec ky "Shift"); [contradiction |].
    destruct (String.eqb_spec c "ArrowUp"); [discriminate |].
    destruct (String.eqb_spec c "ArrowDown"); [discriminate |].
    destruct (String.eqb_spec c "ArrowLeft"); [discriminate |].
    destruct (String.eqb_spec c "ArrowRight"); [discriminate |].
    destruct (String.eqb_spec c "Shift"); [discriminate | reflexivity].
  - intros ->. cbn. reflexivity.
Qed.

(** X19: the AI button walks OFF, EASY, MEDIUM, HARD and back: it always
    finds a next mode, never the current one, and four presses return to
    the mode it started from.  The camera button flips between its two
    modes. *)
Theorem toolbar_buttons_cycle (m : AIDifficulty) (c : CameraMode) :
  (exists next, cycleAI m = Some next /\ next <> m)
  /\ (((cycleAI m ≫= cycleAI) ≫= cycleAI) ≫= cycleAI) = Some m
  /\ toggleCamera c <> c
  /\ toggleCamera (toggleCamera c) = c.
Proof.
  split; [| split; [| split]].
  - destruct m; eexists; (split; [reflexivity | discriminate]).
  - destruct m; reflexivity.
  - destruct c; discriminate.
  - destruct c; reflexivity.
Qed.

Lemma app_state_after (actions : list App.Action) (s : App.State) :
  (App.view s = Gemini.ANALYSIS -> App.lastSessionStats s <> None) ->
  let s' := foldl App.handle s actions in
  (App.view s' = Gemini.ANALYSIS -> App.lastSessionStats s' <> None)
  /\ App.lastSessionStats s' = lastRaceEnd (App.lastSessionStats s) actions.
Proof.
  revert s. induction actions as [|a actions IH]; intros s Hs; cbn [foldl lastRaceEnd].
  - split; [exact Hs | reflexivity].
  - destruct a as [|stats| | |t|c]; cbn [App.handle].
    + apply (IH (App.startRace s)). discriminate.
    + apply (IH (App.handleRaceEnd stats s)). discriminate.
    + apply (IH (App.handleExitRace s)). discriminate.
    + apply (IH (App.backToPaddock s)). discriminate.
    + apply (IH (App.setSelectedTrack t s)). exact Hs.
    + apply (IH (App.setSelectedCar c s)). exact Hs.
Qed.

(** X20: whatever the user and the races do, App never falls through to
    its blank screen: the analysis view is only entered together with the
    statistics of a race, and the statistics it holds are always those of
    the last race that ended. *)
Theorem app_never_renders_blank
    (t0 : TrackData) (c0 : CarConfig) (actions : list App.Action) :
  let s := foldl App.handle (App.initial t0 c0) actions in
  App.render s <> App.Blank
  /\ App.lastSessionStats s = lastRaceEnd None actions.
Proof.
  intros s.
  destruct (app_state_after actions (App.initial t0 c0)) as [Hv Hl];
    [discriminate |].
  fold s in Hv, Hl. split; [| exact Hl].
  unfold App.render. destruct (App.view s) eqn:E; try discriminate.
  destruct (App.lastSessionStats s); [discriminate |].
  now specialize (Hv eq_refl).
Qed.

Section SummariserSuccess.

Import Gemini.

Variable toFixed : Q -> nat -> string.
Variable showInt : Z -> string.

Lemma orElse_not_empty (s : option string) (fallback : string) :
  fallback <> EmptyString -> orElse s fallback <> EmptyString.
Proof.
  intros H. destruct s as [[|a rest]|]; cbn; [exact H | discriminate | exact H].
Qed.

(** X21: whatever the service does, [analyzeRacePerformance] returns a
    string that is not empty, so CrewChief never raises its error flag and
    always has something to show; when the service answers with a text
    that is not empty, that text is returned and shown unchanged. *)
Theorem summary_is_never_empty
    (svc : Service) (stats : GameSessionStats) (c : CrewChiefState) :
  (exists msg,
     analyzeRacePerformance toFixed showInt svc stats = Returned msg
     /\ msg <> EmptyString
     /\ analysis (fetchAnalysis toFixed showInt svc stats c) = msg)
  /\ error (fetchAnalysis toFixed showInt svc stats c) = error c
  /\ (forall r t,
        getAI svc = Returned tt ->
        generateContent svc modelId (prompt toFixed showInt stats) = Returned r ->
        text r = Some t -> t <> EmptyString ->
        analyzeRacePerformance toFixed showInt svc stats = Returned t).
Proof.
  unfold fetchAnalysis. rewrite analyze_cases.
  split; [| split].
  - destruct (getAI svc); [| eexists; repeat split; discriminate].
    destruct (generateContent _ _ _) as [r|];
      [| eexists; repeat split; discriminate].
    eexists. split; [reflexivity |]. split; [| reflexivity].
    apply orElse_not_empty. discriminate.
  - destruct (getAI svc); [| reflexivity].
    destruct (generateContent _ _ _); reflexivity.
  - intros r t -> -> Ht Hne. rewrite Ht.
    destruct t; [contradiction | reflexivity].
Qed.



End SummariserSuccess.

(** ** The track generators *)

Section Catalogue.

Context `{M : JS.MathLib}.

Import Constants.

Lemma forEachStep_length (segments : nat) (point : nat -> Point) :
  List.length (forEachStep segments point) = S segments.
Proof.
  unfold forEachStep. now rewrite length_map, length_seq.
Qed.

Lemma mount_ready (t : TrackData) (now : Q) :
  points t <> [] -> exists s0, mountGameCanvas t now = Ready s0.
Proof.
  unfold mountGameCanvas. destruct (points t); [easy | eauto].
Qed.

Lemma catalogue_lengths (t : TrackData) :
  In t TRACKS ->
  List.length (points t) = 101%nat \/ List.length (points t) = 151%nat
  \/ List.length (points t) = 201%nat.
Proof.
  intros [<- | [<- | [<- | []]]]; cbn [points];
    unfold generateOval, generateFigure8, generateComplex;
    rewrite forEachStep_length; auto.
Qed.

(** X23: the generators run their loop from 0 to [segments] inclusive,
    so an oval has segments + 1 points, the figure of eight 151 and the
    complex track 201.  Every track of the catalogue therefore mounts, has a
    positive width, and a number of points that is not a multiple of 4: its
    last point is in section 4, which has no checkpoint flag. *)
Theorem generated_tracks_have_points
    (centerX centerY w h scale : Q) (segments : nat) :
  List.length (generateOval centerX centerY w h segments) = S segments
  /\ List.length (generateFigure8 centerX centerY scale) = 151%nat
  /\ List.length (generateComplex centerX centerY scale) = 201%nat
  /\ forall t, In t TRACKS ->
       (forall now, exists s0, mountGameCanvas t now = Ready s0)
       /\ 0 < width t
       /\ (totalPoints t mod 4 <> 0)%Z
       /\ currentSection t (totalPoints t - 1) = Some 4%Z.
Proof.
  split; [apply forEachStep_length |].
  split; [apply forEachStep_length |].
  split; [apply forEachStep_length |].
  intros t Ht. pose proof (catalogue_lengths t Ht) as Hlen.
  assert (Hw : 0 < width t).
  { destruct Ht as [<- | [<- | [<- | []]]]; reflexivity. }
  split; [| split; [exact Hw |]].
  - intros now. apply mount_ready. intros E. rewrite E in Hlen.
    cbn in Hlen. intuition discriminate.
  - unfold currentSection. rewrite checkpointZone_div. unfold totalPoints.
    destruct Hlen as [-> | [-> | ->]]; split; (discriminate || reflexivity).
Qed.

End Catalogue.

(** ** A car nobody drives *)

Section Idle.

Context `{M : JS.MathLib}.
Variable track : TrackData.
Variable carConfig : CarConfig.

Lemma clamp_of_zero (c : Car) (v : Q) :
  0 <= topSpeed carConfig -> v == 0 -> clampSpeed carConfig c v == 0.
Proof.
  intros Htop Hv.
  assert (Hm : 0 <= currentTopSpeed carConfig c).
  { rewrite currentTopSpeed_multiplier. unfold boostMultiplier.
    destruct (boosting c); lra. }
  unfold clampSpeed, JS.max, JS.min. apply Qle_antisym.
  - apply Q.max_lub; [| qlra].
    eapply Qle_trans; [apply Q.le_min_l | lra].
  - eapply Qle_trans; [| apply Q.le_max_l]. apply Q.min_glb; lra.
Qed.

Lemma physicsStep_fields (dt : Q) (k : Keys) (c : Car) :
  let c' := physicsStep carConfig dt k c in
  let grip := if drifting c then 0.92 else handling carConfig in
  speed c' = clampSpeed carConfig c (throttle carConfig dt k c)
  /\ v_x (velocity c')
     = v_x (velocity c) * grip + JS.cos (angle c') * speed c' * (1 - grip)
  /\ v_z (velocity c')
     = v_z (velocity c) * grip + JS.sin (angle c') * speed c' * (1 - grip)
  /\ x c' = x c + v_x (velocity c') * dt * 60
  /\ z c' = z c + v_z (velocity c') * dt * 60
  /\ drifting c' = drifting c
  /\ (ArrowLeft k = false -> ArrowRight k = false -> angle c' = angle c).
Proof.
  unfold physicsStep. cbv zeta. cbn [speed velocity v_x v_z x z angle drifting].
  repeat split. intros -> ->. now destruct (JS.gtb _ 0.1).
Qed.

Lemma idle_frame (c0 : Car) (s : GameState) (f : Frame) :
  0 <= topSpeed carConfig ->
  aiMode f = OFF -> events f = [] ->
  keys s = noKeys -> restsAt c0 (car s) ->
  keys (frameStep track carConfig s f) = noKeys
  /\ restsAt c0 (car (frameStep track carConfig s f)).
Proof.
  intros Htop Hai Hev Hk (Hs & Hvx & Hvz & Hx & Hz & Ha & Hd).
  assert (Hkeys : frameKeys track carConfig s f = noKeys).
  { unfold frameKeys, aiControl. now rewrite Hai, Hev. }
  split.
  { unfold frameStep, runGameLoop. cbn [car keys pressKeys].
    fold (frameKeys track carConfig s f). rewrite Hkeys.
    destruct (lapComplete _ _); reflexivity. }
  rewrite car_frameStep. cbv zeta. rewrite Hkeys.
  set (c1 := arbitrated track carConfig s f).
  assert (Hc1 : c1 = mkCar (x (car s)) (z (car s)) (angle (car s))
                      (velocity (car s)) (speed (car s)) false 0
                      (boostTimer (car s))).
  { unfold c1, arbitrated. rewrite Hkeys. unfold driftStep, noKeys.
    cbn [Shift andb]. now rewrite Hd. }
  assert (Hs1 : speed c1 == 0) by (rewrite Hc1; exact Hs).
  assert (Hvx1 : v_x (velocity c1) == 0) by (rewrite Hc1; exact Hvx).
  assert (Hvz1 : v_z (velocity c1) == 0) by (rewrite Hc1; exact Hvz).
  assert (Hx1 : x c1 == x c0) by (rewrite Hc1; exact Hx).
  assert (Hz1 : z c1 == z c0) by (rewrite Hc1; exact Hz).
  assert (Ha1 : angle c1 = angle c0) by (rewrite Hc1; exact Ha).
  assert (Hd1 : drifting c1 = false) by (rewrite Hc1; reflexivity).
  clearbody c1.
  destruct (physicsStep_fields (frameDt f) noKeys c1)
    as (Ep & Evx & Evz & Ex & Ez & Ed & Ea).
  set (c2 := physicsStep carConfig (frameDt f) noKeys c1) in *.
  assert (Hs2 : speed c2 == 0).
  { rewrite Ep. apply clamp_of_zero; [exact Htop |].
    unfold throttle, noKeys. cbn [ArrowUp ArrowDown]. rewrite Hs1. ring. }
  assert (Hvx2 : v_x (velocity c2) == 0) by (rewrite Evx, Hvx1, Hs2; ring).
  assert (Hvz2 : v_z (velocity c2) == 0) by (rewrite Evz, Hvz1, Hs2; ring).
  assert (Hp : restsAt c0 c2).
  { unfold restsAt. repeat split; try assumption.
    - rewrite Ex, Hvx2, Hx1. ring.
    - rewrite Ez, Hvz2, Hz1. ring.
    - rewrite Ea by reflexivity. exact Ha1. }
  destruct (isOffTrack _ _); [| exact Hp].
  destruct Hp as (Hs' & Hvx' & Hvz' & Hx' & Hz' & Ha' & Hd').
  unfold restsAt. cbn [speed velocity v_x v_z x z angle drifting offTrackCar].
  repeat split; try assumption.
  - rewrite Hs'. ring.
  - rewrite Hvx'. ring.
  - rewrite Hvz'. ring.
Qed.

(** X24: with a top speed that is not negative, a car that is mounted
    and then left alone (AI off, no key event) stays where the mount put
    it, at speed 0, on its heading and without drifting, with no key
    held. *)
Theorem idle_car_stays_put (now : Q) (s0 : GameState) (fs : list Frame) :
  mountGameCanvas track now = Ready s0 ->
  0 <= topSpeed carConfig ->
  idleFrames fs ->
  let s := run track carConfig fs s0 in
  keys s = noKeys /\ restsAt (car s0) (car s).
Proof.
  intros Hm Htop Hidle s.
  assert (H0 : keys s0 = noKeys /\ restsAt (car s0) (car s0)).
  { unfold mountGameCanvas in Hm. destruct (points track); [discriminate |].
    injection Hm as <-. unfold restsAt. cbn. repeat split; reflexivity. }
  apply (run_invariant track carConfig
           (fun f => aiMode f = OFF /\ events f = [])
           (fun s => keys s = noKeys /\ restsAt (car s0) (car s)));
    [| exact Hidle | exact H0].
  intros s1 f [Hai Hev] [Hk Hr]. now apply idle_frame.
Qed.

End Idle.
(** ** The loop on concrete inputs *)

Section Examples.

Import FixedMath Fixtures.

Lemma speed_within_current_limits_witness :
  let s0 := start strip in
  let f := frame [down "ArrowUp"] 100 in
  let T := topSpeed titan * boostMultiplier (arbitrated strip titan s0 f) in
  - T / 3 <= speed (car (run strip titan ([] ++ [f]) s0)) <= T.
Proof.
  intros s0 f.
  apply (speed_within_current_limits strip titan s0 [] f).
  vm_compute. discriminate.
Defined.

(** The speed, drift and boost state of [reverser] is the one the mounted
    Titan reaches by braking for three frames and drifting for eleven. *)
Lemma reverser_is_reached :
  let c := Nat.iter 11 (onTrackFrame reverseDriftKeys)
             (Nat.iter 3 (onTrackFrame brakeKeys) (car (start strip))) in
  speed c == speed (car reverser)
  /\ drifting c = drifting (car reverser)
  /\ driftCharge c == driftCharge (car reverser)
  /\ boostTimer c == boostTimer (car reverser).
Proof.
  lazy. repeat split.
Qed.

(** C1, as stated, fails: letting go of Shift while braking at the
    reverse limit grants a boost, and the same frame takes the Titan (top
    speed 32) to -16, below -32/3, with the boost timer positive. *)
Lemma reverse_speed_below_third :
  let s := run strip titan [frame [shiftUp] 500] reverser in
  - topSpeed titan / 3 <= speed (car reverser) <= topSpeed titan
  /\ 0 < boostTimer (car s)
  /\ speed (car s) == -16
  /\ ~ (- topSpeed titan / 3 <= speed (car s)
        <= topSpeed titan * boostMultiplier (car s)).
Proof.
  lazy. repeat split; try discriminate.
  intros [H _]. apply H. reflexivity.
Qed.



Lemma lap_recorded_exactly_when_witness :
  (exists r,
     telemetry (frameStep strip titan homeStretch (frame [] 100))
     = telemetry homeStretch ++ [r])
  /\ telemetry (frameStep strip titan (start strip) (frame [] 100))
     = telemetry (start strip)
  /\ telemetry (run strip titan (take 3 reverseBoost) (start strip)) = [].
Proof.
  assert (Hpts : points strip <> []) by discriminate.
  split; [| split].
  - apply (proj1 (lap_recorded_exactly_when strip titan homeStretch
                    (frame [] 100) Hpts)).
    vm_compute. repeat split; discriminate.
  - apply (proj1 (proj2 (lap_recorded_exactly_when strip titan (start strip)
                           (frame [] 100) Hpts))).
    vm_compute. intros (_ & H & _). discriminate H.
  - apply (proj2 (proj2 (lap_recorded_exactly_when strip titan (start strip)
                           (frame [] 100) Hpts)) 0 (start strip)).
    + reflexivity.
    + left. intros (n & Hn & Hs).
      assert (Hz : checkpointZone strip = 0%Z) by reflexivity.
      unfold currentSection in Hs. rewrite Hz in Hs. discriminate Hs.
Defined.

(** C4 fails on the code: thirty-three frames of 0.1 s take the charge
    of a held drift from 0 to 99, and the next one to 102: the guard only
    asks whether the charge is still below 100 before adding dt * 30. *)
Theorem drift_charge_overshoots_cap :
  let held := keys (drifter 0) in
  let s := drifter 99 in
  let s' := frameStep strip titan s (frame [] 100) in
  driftCharge (Nat.iter 33 (driftStep 0.1 held) (car (drifter 0))) == 99
  /\ driftCharge (car s) == 99
  /\ drifting (car s') = true
  /\ driftCharge (car s') == 102
  /\ ~ (0 <= driftCharge (car s') <= 100).
Proof.
  lazy. repeat split; try discriminate.
  intros [_ H]. apply H. reflexivity.
Qed.

Lemma checkpoint_marked_only_in_range_witness :
  (0 <= closestIndex pentagon (start pentagon) / (5 / 4) < 4)%Z
  /\ markedCheckpoints pentagon (start pentagon)
     = <[Z.to_nat (closestIndex pentagon (start pentagon) / (5 / 4)) := true]>
         (checkpoints (start pentagon)).
Proof.
  assert (Hpts : points pentagon <> []) by discriminate.
  apply (proj1 (checkpoint_marked_only_in_range pentagon (start pentagon) Hpts)).
  - vm_compute. discriminate.
  - vm_compute. reflexivity.
Defined.

(** C5, as stated, fails: on the five-point loop the Titan backs up
    from the start until the last point (index 4) is the closest; the
    frame that starts there computes section 4 and marks nothing, so the
    flag of quarter 3 stays clear. *)
Lemma last_point_marks_no_checkpoint :
  let brake := frame [down "ArrowDown"] 100 in
  let s := run pentagon titan [brake; brake; brake] (start pentagon) in
  List.length (points pentagon) = 5%nat
  /\ closestIndex pentagon s = 4%Z
  /\ currentSection pentagon (closestIndex pentagon s) = Some 4%Z
  /\ flag (markedCheckpoints pentagon s) 3 = false
  /\ flag (checkpoints (frameStep pentagon titan s brake)) 3 = false.
Proof.
  vm_compute. repeat split.
Qed.

Lemma best_lap_is_minimum_witness :
  (exists lap, In lap (telemetry threeLaps) /\ time lap = 28.25)
  /\ (forall lap, In lap (telemetry threeLaps) -> 28.25 <= time lap).
Proof.
  apply (proj1 (proj2 (proj2 (best_lap_is_minimum strip titan "2026-11-02"
                                threeLaps))) 28.25).
  reflexivity.
Defined.


Lemma summarizer_failure_yields_fallback_witness :
  let stats := finishRace "2026-11-02" threeLaps in
  let a := Gemini.handleRaceEnd stats
             (Gemini.mkApp Gemini.RACE None
                (Gemini.mkCrew EmptyString true false)) in
  Gemini.analyzeRacePerformance HostFormat.toFixed HostFormat.showInt
    offline stats
  = Gemini.Returned Gemini.radioDownMessage
  /\ Gemini.analysis
       (Gemini.crewChief
          (Gemini.showAnalysis HostFormat.toFixed HostFormat.showInt offline a))
     = Gemini.radioDownMessage.
Proof.
  intros stats a.
  apply (proj1 (summarizer_failure_yields_fallback HostFormat.toFixed
                  HostFormat.showInt offline stats a eq_refl)).
  right. eexists. reflexivity.
Defined.

Example mute_service_gives_no_data :
  Gemini.analyzeRacePerformance HostFormat.toFixed HostFormat.showInt mute
    (finishRace "2026-11-02" threeLaps)
  = Gemini.Returned Gemini.noDataMessage.
Proof. reflexivity. Qed.

Example chatty_service_is_passed_on :
  Gemini.analyzeRacePerformance HostFormat.toFixed HostFormat.showInt chatty
    (finishRace "2026-11-02" threeLaps)
  = Gemini.Returned "Good pace."%string.
Proof. reflexivity. Qed.

Example three_laps_stats :
  let stats := finishRace "2026-11-02" threeLaps in
  totalLaps stats = 3%Z /\ bestLap stats = Some 28.25
  /\ Gemini.bestLapText HostFormat.toFixed stats = "28.25s"%string.
Proof. vm_compute. repeat split. Qed.

Lemma effects_do_not_feed_back_witness :
  physicsView
    (frameStep strip titan (drifter 45)
       (mkFrame 0.1 OFF (fun _ => 0.9) [] 100 100))
  = physicsView
      (frameStep strip titan (sparkling 45)
         (mkFrame 0.1 OFF (fun n => Qmake (Z.of_nat n) 16) [] 100 100)).
Proof.
  apply effects_do_not_feed_back.
  - reflexivity.
  - repeat split.
Defined.


(** *** Further properties on concrete inputs *)

Import Sessions.

Ltac each tac := repeat (constructor; [tac |]); try constructor.



Lemma twoIdleFrames_idle : idleFrames twoIdleFrames.
Proof. unfold idleFrames, twoIdleFrames. each ltac:(split; reflexivity). Qed.

Lemma closest_point_is_first_nearest_witness :
  exists p : Point,
    points strip !! Z.to_nat (closestIndex strip (start strip)) = Some p
    /\ (0 <= closestIndex strip (start strip))%Z
    /\ fst (closestPoint strip (car (start strip)))
       = JS.Finite (distanceTo (car (start strip)) p)
    /\ (forall q, In q (points strip) ->
          distanceTo (car (start strip)) p <= distanceTo (car (start strip)) q)
    /\ (forall (j : nat) (q : Point),
          (j < Z.to_nat (closestIndex strip (start strip)))%nat ->
          points strip !! j = Some q ->
          distanceTo (car (start strip)) p < distanceTo (car (start strip)) q).
Proof.
  apply (closest_point_is_first_nearest strip (start strip)). discriminate.
Defined.

Lemma ai_keys_are_consistent_witness :
  let k := frameKeys strip titan (drifter 45) hardFrame in
  ArrowLeft k && ArrowRight k = false
  /\ ArrowDown k = negb (ArrowUp k)
  /\ (Shift k = true ->
      aiMode hardFrame = HARD /\ 20 < JS.abs (speed (car (drifter 45)))).
Proof.
  apply (ai_keys_are_consistent strip titan (drifter 45) hardFrame);
    discriminate.
Defined.

Lemma drifting_needs_speed_and_steering_witness :
  let k := frameKeys strip titan (drifter 45) (frame [] 100) in
  offTrackAt strip (drifter 45) = false
  /\ Shift k = true
  /\ 10 < JS.abs (speed (car (drifter 45)))
  /\ (ArrowLeft k = true \/ ArrowRight k = true
      \/ drifting (car (drifter 45)) = true).
Proof.
  apply (drifting_needs_speed_and_steering strip titan (drifter 45)
           (frame [] 100)).
  lazy. reflexivity.
Defined.


Lemma coasting_never_speeds_up_witness :
  JS.abs (speed (car (frameStep strip titan homeStretch
                        (frame [up "ArrowUp"] 100))))
  <= JS.abs (speed (car homeStretch)).
Proof.
  apply (coasting_never_speeds_up strip titan homeStretch
           (frame [up "ArrowUp"] 100)).
  - vm_compute. discriminate.
  - reflexivity.
  - reflexivity.
Defined.






Lemma no_lap_right_after_a_lap_witness :
  let s1 := frameStep strip titan homeStretch (frame [] 100) in
  lapCompletes strip s1 = false
  /\ telemetry (frameStep strip titan s1 (frame [] 200)) = telemetry s1.
Proof.
  apply (no_lap_right_after_a_lap strip titan homeStretch (frame [] 100)
           (frame [] 200)).
  lazy. reflexivity.
Defined.




Lemma idle_car_stays_put_witness :
  let s := run strip titan twoIdleFrames (start strip) in
  keys s = noKeys /\ restsAt (car (start strip)) (car s).
Proof.
  apply (idle_car_stays_put strip titan 0 (start strip) twoIdleFrames).
  - reflexivity.
  - vm_compute. discriminate.
  - exact twoIdleFrames_idle.
Defined.

End Examples.
